(** * math3d: the Vector class and the Line class

    A shallow embedding of [math3d/vector.py] and [math3d/geometry/line.py].

    Python objects are modelled by an inductive type of dynamically typed
    values, exceptions by an error monad, NumPy's float64 arrays of shape (3,)
    by records of three binary64 floats (Rocq's primitive floats, which
    compute with IEEE-754 semantics), keyword arguments by finite maps. *)

From Stdlib Require Import Floats ZArith List String Bool Lia.
From stdpp Require Import base gmap strings.
Import ListNotations.

Set Warnings "-register-all,-inexact-float".

Local Open Scope float_scope.

(** ** Exceptions and the error monad *)

Inductive exn : Type :=
| VectorError (message : string)    (* Vector.Error, [raise self.Error(...)] *)
| PlainException (message : string) (* [raise Exception(...)] *)
| TypeError (message : string)
| NameError (name : string)
| AttributeError (name : string)
| ValueError (message : string).

Inductive result (A : Type) : Type :=
| Ok (a : A)
| Raise (e : exn).

Arguments Ok {A} a.
Arguments Raise {A} e.

#[global] Instance result_ret : MRet result := fun A a => Ok a.

#[global] Instance result_bind : MBind result := fun A B k r =>
  match r with
  | Ok a => k a
  | Raise e => Raise e
  end.

Definition raises {A : Type} (r : result A) : bool :=
  match r with Ok _ => false | Raise _ => true end.

(** ** Data *)

(** A float64 [numpy.ndarray] of shape (3,), the storage of a Vector. *)
Record ndarray : Type := mkArray { a0 : float; a1 : float; a2 : float }.

(** A float64 array of shape (3, 3), by its rows. *)
Record matrix : Type := mkMatrix { row0 : ndarray; row1 : ndarray; row2 : ndarray }.

(** An instance of [class Vector]: its two instance attributes. *)
Record Vector : Type := mkVector { _data : ndarray; _isPosition : Z }.

(** The Python values the model tracks.  A number stands for a Python or
    NumPy float by its binary64 value (an integer literal such as [1] is the
    float the constructor's [np.array(..., dtype=np.float64)] stores for it).
    A bound method is what [v.normalized], without call, evaluates to. *)
Inductive value : Type :=
| VNone
| VNum (f : float)
| VSeq (items : list value)              (* a tuple *)
| VVec (v : Vector)
| VMethod (self : Vector) (name : string).

(** Truth value of an object, as [if kwargs['position']:] takes it. *)
Definition truth (v : value) : bool :=
  match v with
  | VNone => false
  | VNum f => negb (f =? 0)
  | VSeq items => negb (Nat.eqb (length items) 0)
  | VVec _ => true
  | VMethod _ _ => true
  end.

(** ** math3d.utils *)

Module utils.

(** Modelled from the spec: [math3d/utils.py] is not among the sources.  Its
    predicates are read off their names and the constructor contract of the
    spec: "from 3 scalars, from 2 scalars, from any 3-element or 2-element
    ordered sequence of numbers". *)
Definition isNumType (v : value) : bool :=
  match v with VNum _ => true | _ => false end.

(** Modelled from the spec: see [isNumType]. *)
Definition isNumTypes (vs : list value) : bool := forallb isNumType vs.

(** Modelled from the spec: see [isNumType]. *)
Definition isSequence (v : value) : bool :=
  match v with VSeq _ => true | _ => false end.

(** Modelled from the spec: see [isNumType]. *)
Definition isThreeSequence (v : value) : bool :=
  match v with
  | VSeq items => Nat.eqb (length items) 3 && isNumTypes items
  | _ => false
  end.

End utils.

(** ** The NumPy operations the two files use *)

Module np.

(** [np.array(items, dtype=np.float64)] on a sequence of three items.  [None]
    is stored as NaN; an item that is no number is refused: a nested sequence
    next to scalars, and a Vector, which NumPy takes for one (it has
    [__getitem__]), with ValueError, a method with TypeError. *)
Definition float64 (v : value) : result float :=
  match v with
  | VNum f => Ok f
  | VNone => Ok nan
  | VSeq _ | VVec _ =>
      Raise (ValueError "setting an array element with a sequence")
  | VMethod _ _ => Raise (TypeError "float() argument must be a number")
  end.

Definition array (x y z : value) : result ndarray :=
  fx ← float64 x; fy ← float64 y; fz ← float64 z;
  Ok (mkArray fx fy fz).

Definition zeros : ndarray := mkArray 0 0 0.

Definition add (a b : ndarray) : ndarray :=
  mkArray (a0 a + a0 b) (a1 a + a1 b) (a2 a + a2 b).

Definition subtract (a b : ndarray) : ndarray :=
  mkArray (a0 a - a0 b) (a1 a - a1 b) (a2 a - a2 b).

Definition negative (a : ndarray) : ndarray :=
  mkArray (- a0 a) (- a1 a) (- a2 a).

(** [a * s], [s * a] and [np.dot(a, s)] for a scalar [s]. *)
Definition scale (a : ndarray) (s : float) : ndarray :=
  mkArray (a0 a * s) (a1 a * s) (a2 a * s).

(** [a / s] for a scalar [s]: NumPy divides by zero without raising. *)
Definition divide (a : ndarray) (s : float) : ndarray :=
  mkArray (a0 a / s) (a1 a / s) (a2 a / s).

(** [np.dot(a, b)] for two arrays, each product and each sum rounded in
    turn.  A BLAS that accumulates with fused multiply-adds may round the sum
    otherwise; the properties below hold under either accumulation. *)
Definition dot (a b : ndarray) : float :=
  a0 a * a0 b + a1 a * a1 b + a2 a * a2 b.

(** [a ** 2] *)
Definition square (a : ndarray) : ndarray :=
  mkArray (a0 a * a0 a) (a1 a * a1 a) (a2 a * a2 a).

Definition sum (a : ndarray) : float := a0 a + a1 a + a2 a.

Definition cross (a b : ndarray) : ndarray :=
  mkArray (a1 a * a2 b - a2 a * a1 b)
          (a2 a * a0 b - a0 a * a2 b)
          (a0 a * a1 b - a1 a * a0 b).

End np.

(** ** class Vector (vector.py) *)

Module Vector.

(** The names bound in the module namespace of vector.py: its dunder
    assignments, [import numpy as np], the five names of
    [from math3d.utils import ...], and the three definitions. *)
Definition module_names : list string :=
  [ "__author__"; "__copyright__"; "__credits__"; "__license__";
    "__maintainer__"; "__email__"; "__status__"; "np";
    "isNumTypes"; "isNumType"; "isSequence"; "isThreeSequence"; "_eps";
    "isVector"; "Vector"; "_test" ].

(** The builtins the file refers to. *)
Definition builtin_names : list string :=
  [ "type"; "len"; "str"; "print"; "object"; "Exception"; "AttributeError";
    "classmethod"; "property" ].

(** Evaluating a global name inside a method of the file. *)
Definition global (name : string) : result unit :=
  if decide (name ∈ (list_to_set (module_names ++ builtin_names) : gset string))
  then Ok ()
  else Raise (NameError name).

(** [type(v) == Vector], the test of [isVector] and of the operators. *)
Definition isVector (v : value) : bool :=
  match v with VVec _ => true | _ => false end.

(** A float64 array handed to the constructor is seen by it as the sequence
    of its three numbers. *)
Definition items (a : ndarray) : value :=
  VSeq [VNum (a0 a); VNum (a1 a); VNum (a2 a)].

(** [np.array(arg, dtype=np.float64)] for a sequence argument. *)
Definition array_of (arg : value) : result ndarray :=
  match arg with
  | VSeq [x; y; z] => np.array x y z
  | _ => Raise (ValueError "not of shape (3,)")
  end.

(** [len(arg) == 2] and [arg[0]], [arg[1]] for a sequence argument. *)
Definition pair_of (arg : value) : option (value * value) :=
  match arg with
  | VSeq [x; y] => Some (x, y)
  | _ => None
  end.

(** Lines 69 to 72: the tag is 1 unless 'position' is given and false. *)
Definition position_flag (kwargs : gmap string value) : Z :=
  match kwargs !! "position" with
  | Some p => if truth p then 1%Z else 0%Z
  | None => 1%Z
  end.

Definition __init__ (args : list value) (kwargs : gmap string value)
  : result Vector :=
  data ←
    match args with
    | [x; y; z] =>
        if utils.isNumTypes args then np.array x y z else Ok np.zeros
    | [x; y] =>
        if utils.isNumTypes args then np.array x y (VNum 0) else Ok np.zeros
    | [arg] =>
        if utils.isThreeSequence arg then array_of arg
        else
          match (if utils.isSequence arg then pair_of arg else None) with
          | Some (x, y) => np.array x y (VNum 0)
          | None =>
              match arg with
              | VVec other => Ok (_data other)
              | _ => Raise (VectorError
                       "__init__ : could not create vector on argument")
              end
          end
    | _ => Ok np.zeros
    end;
  Ok (mkVector data (position_flag kwargs)).

(** [Vector(a)] on a NumPy result [a], without keyword. *)
Definition of_array (a : ndarray) : result Vector := __init__ [items a] ∅.

Definition __copy__ (self : Vector) : result Vector := __init__ [VVec self] ∅.

Definition __deepcopy__ (self : Vector) : result Vector := __copy__ self.


Definition isPos (self : Vector) : Z := _isPosition self.

Definition length2 (self : Vector) : float := np.dot (_data self) (_data self).

Definition length (self : Vector) : float := sqrt (length2 self).

(** [normalize] returns None; the result here is the receiver after the call. *)
Definition normalize (self : Vector) : Vector :=
  let l := length self in
  if negb (l =? 1)
  then mkVector (np.divide (_data self) l) (_isPosition self)
  else self.

Definition normalized (self : Vector) : result Vector :=
  nv ← __init__ [VVec self] ∅;
  Ok (normalize nv).

(** [other._data]: only a Vector has the attribute. *)
Definition data_of (other : value) : result ndarray :=
  match other with
  | VVec o => Ok (_data o)
  | _ => Raise (AttributeError "_data")
  end.

Definition cross (self : Vector) (other : value) : result Vector :=
  d ← data_of other;
  of_array (np.cross (_data self) d).

(** A method without [else] falls off its end and returns None. *)
Definition __sub__ (self : Vector) (other : value) : result value :=
  match other with
  | VVec o => v ← of_array (np.subtract (_data self) (_data o)); Ok (VVec v)
  | _ => Ok VNone
  end.

Definition __add__ (self : Vector) (other : value) : result value :=
  match other with
  | VVec o => v ← of_array (np.add (_data self) (_data o)); Ok (VVec v)
  | _ => Raise (VectorError "__add__ : Could not add non-vector")
  end.

Definition __neg__ (self : Vector) : result Vector :=
  of_array (np.negative (_data self)).

Definition __mul__ (self : Vector) (other : value) : result value :=
  match other with
  | VVec o => Ok (VNum (np.dot (_data self) (_data o)))
  | VNum s => v ← of_array (np.scale (_data self) s); Ok (VVec v)
  | _ => Ok VNone
  end.

Definition __rmul__ (self : Vector) (other : value) : result value :=
  match other with
  | VNum s => v ← of_array (np.scale (_data self) s); Ok (VVec v)
  | _ => Raise (VectorError "__rmul__ : Could not multiply by non-number")
  end.

(** [1.0 / other * self._data], for a NumPy scalar divisor (a Python float
    zero raises ZeroDivisionError at [1.0 / other] instead, which the model
    leaves out). *)
Definition __truediv__ (self : Vector) (other : value) : result value :=
  match other with
  | VNum s => v ← of_array (np.scale (_data self) (1 / s)); Ok (VVec v)
  | _ => Raise (VectorError "__rdiv__ : Could not divide by non-number")
  end.

(** The in-place methods: what the receiver holds after the call, and what
    the call returns ([self]) or raises. *)
Record inplace : Type := mkInplace { receiver : Vector; returned : result value }.

Definition __isub__ (self : Vector) (other : value) : inplace :=
  let self' :=
    match other with
    | VVec o => mkVector (np.subtract (_data self) (_data o)) (_isPosition self)
    | _ => self
    end in
  mkInplace self' (Ok (VVec self')).

Definition __iadd__ (self : Vector) (other : value) : inplace :=
  match other with
  | VVec o =>
      let self' := mkVector (np.add (_data self) (_data o)) (_isPosition self) in
      mkInplace self' (Ok (VVec self'))
  | _ => mkInplace self (Raise (VectorError "__iadd__ : Could not add non-vector"))
  end.

Definition __imul__ (self : Vector) (other : value) : inplace :=
  match other with
  | VNum s =>
      let self' := mkVector (np.scale (_data self) s) (_isPosition self) in
      mkInplace self' (Ok (VVec self'))
  | _ => mkInplace self
           (Raise (VectorError "__imul__ : Could not multiply by non-number"))
  end.

Definition dist2 (self : Vector) (other : value) : result float :=
  d ← __sub__ self other;
  match d with
  | VVec v => Ok (length2 v)
  | _ => Raise (AttributeError "length2")
  end.

Definition dist (self : Vector) (other : value) : result float :=
  d ← dist2 self other; Ok (sqrt d).

Section Tolerance.

(** [_eps] of math3d.utils, which is not among the sources: a parameter. *)
Variable _eps : float.

(** Line 132 reads the tolerance as [utils._eps]. *)
Definition __eq__ (self : Vector) (other : value) : result bool :=
  match other with
  | VVec o =>
      let s := np.sum (np.square (np.subtract (_data self) (_data o))) in
      _ ← global "utils";
      Ok (s <? _eps)
  | _ => Raise (VectorError "Could not compare to non-Vector!")
  end.

End Tolerance.

(** The cosine of line 150 and its clamping, lines 151 to 154. *)
Definition costheta (self other : Vector) : float :=
  np.dot (_data self) (_data other) / (length self * length other).

Definition clamp (c : float) : float :=
  if 1 <? c then 1
  else if c <? -1 then -1
  else c.

Section Angle.

(** [np.arccos] on a float64 scalar. *)
Variable arccos : float -> float.

Definition angle (self : Vector) (other : value) : result float :=
  match other with
  | VVec o => Ok (arccos (clamp (costheta self o)))
  | _ => Raise (AttributeError "length")
  end.

End Angle.

Section SignedAngle.

Variable arccos : float -> float.

(** The test [xprod*refVec < 0] orders the product against 0 only when it
    is a number: a Vector or None on the left of [<] raises TypeError. *)
Definition sangle (self : Vector) (other refVec : value) : result float :=
  theta ← angle arccos self other;
  xprod ← cross self other;
  match refVec with
  | VNone => Ok (if a2 (_data xprod) <? 0 then - theta else theta)
  | _ =>
      m ← __mul__ xprod refVec;
      match m with
      | VNum c => Ok (if c <? 0 then - theta else theta)
      | _ => Raise (TypeError "'<' not supported")
      end
  end.

End SignedAngle.

(** Lines 207 to 214: [np.zeros((3,3))] with its six off-diagonal entries
    assigned from the components. *)
Definition cross_operator (self : Vector) : matrix :=
  let d := _data self in
  mkMatrix (mkArray 0 (- a2 d) (a1 d))
           (mkArray (a2 d) 0 (- a0 d))
           (mkArray (- a1 d) (a0 d) 0).

(** [cls.canCreateOn( *v )], the call of line 42 that unpacks [v]: inside,
    [arg] is the tuple of the unpacked items, never of type [cls], and a
    sequence.  A number cannot be unpacked; a Vector unpacks, through
    [__getitem__], into its three components, which are numbers. *)
Fixpoint canCreateOn_unpacked (v : value) : result bool :=
  match v with
  | VSeq arg =>
      if Nat.leb (List.length arg) 3 && utils.isNumTypes arg then Ok true
      else
        match arg with
        | [x] => canCreateOn_unpacked x
        | _ => Ok false
        end
  | VVec _ => Ok true
  | _ => Raise (TypeError "argument after * must be an iterable")
  end.

Definition canCreateOn (arg : list value) : result bool :=
  canCreateOn_unpacked (VSeq arg).

End Vector.

(** ** Python's binary operators on the values of the model *)

Definition unsupported {A : Type} (op : string) : result A :=
  Raise (TypeError ("unsupported operand type(s) for " ++ op)).

(** [a * b]: the left operand's [__mul__], and [Vector.__rmul__] when the
    left operand's type has none that accepts a Vector. *)
Definition py_mul (a b : value) : result value :=
  match a, b with
  | VVec v, _ => Vector.__mul__ v b
  | VNum x, VNum y => Ok (VNum (x * y))
  | _, VVec w => Vector.__rmul__ w a
  | _, _ => unsupported "*"
  end.

(** [a - b]: the class has no [__rsub__]. *)
Definition py_sub (a b : value) : result value :=
  match a, b with
  | VVec v, _ => Vector.__sub__ v b
  | VNum x, VNum y => Ok (VNum (x - y))
  | _, _ => unsupported "-"
  end.

(** [a + b]: the class has no [__radd__]; tuples concatenate. *)
Definition py_add (a b : value) : result value :=
  match a, b with
  | VVec v, _ => Vector.__add__ v b
  | VNum x, VNum y => Ok (VNum (x + y))
  | VSeq xs, VSeq ys => Ok (VSeq (xs ++ ys))
  | _, _ => unsupported "+"
  end.

(** [a / b]; two NumPy scalars divide by IEEE-754 rules, without raising. *)
Definition py_truediv (a b : value) : result value :=
  match a, b with
  | VVec v, _ => Vector.__truediv__ v b
  | VNum x, VNum y => Ok (VNum (x / y))
  | _, _ => unsupported "/"
  end.

(** [a < t] for a number [t]: only numbers are ordered against a number
    (the class defines no [__lt__]). *)
Definition py_lt_num (a : value) (t : float) : result bool :=
  match a with
  | VNum x => Ok (x <? t)
  | _ => Raise (TypeError "'<' not supported")
  end.

(** [recv.cross(arg)] on any receiver. *)
Definition call_cross (recv arg : value) : result value :=
  match recv with
  | VVec v => c ← Vector.cross v arg; Ok (VVec c)
  | _ => Raise (AttributeError "cross")
  end.

(** [for e in v]: a tuple yields its items, a Vector its three components
    (through [__getitem__]). *)
Definition iterate (v : value) : result (list value) :=
  match v with
  | VSeq xs => Ok xs
  | VVec w => Ok [VNum (a0 (_data w)); VNum (a1 (_data w)); VNum (a2 (_data w))]
  | _ => Raise (TypeError "object is not iterable")
  end.

(** ** class Line (geometry/line.py) *)

(** The instance attributes; [_ud] holds whatever [self._d.normalized]
    evaluated to. *)
Record Line : Type := mkLine { _p : Vector; _d : Vector; _ud : value }.

Module Line.

(** [[m3d.Vector(e) for e in pd]] unpacked into [self._p, self._d]. *)
Definition pd_pair (pd : value) : result (Vector * value) :=
  es ← iterate pd;
  vs ← mapM (fun e => Vector.__init__ [e] ∅) es;
  match vs with
  | [p; d] => Ok (p, VVec d)
  | _ => Raise (ValueError "wrong number of values to unpack")
  end.

(** [d.normalized], the attribute, not a call: on a Vector, the bound method. *)
Definition get_normalized (d : value) : result (Vector * value) :=
  match d with
  | VVec v => Ok (v, VMethod v "normalized")
  | _ => Raise (AttributeError "normalized")
  end.

Definition __init__ (kwargs : gmap string value) : result Line :=
  '(p, d) ←
    match kwargs !! "point_direction" with
    | Some pd => pd_pair pd
    | None =>
    match kwargs !! "pd_pair" with
    | Some pd => pd_pair pd
    | None =>
    match kwargs !! "point", kwargs !! "direction" with
    | Some point, Some direction =>
        p ← Vector.__init__ [point] ∅;
        d ← Vector.__init__ [direction] ∅;
        Ok (p, VVec d)
    | _, _ =>
    match kwargs !! "point0", kwargs !! "point1" with
    | Some point0, Some point1 =>
        p ← Vector.__init__ [point0] ∅;
        q ← Vector.__init__ [point1] ∅;
        d ← Vector.__sub__ q (VVec p);
        Ok (p, d)
    | _, _ =>
        Raise (PlainException "Can not create Line object on given arguments")
    end end end end;
  '(d, ud) ← get_normalized d;
  Ok (mkLine p d ud).

Definition point (self : Line) : result Vector :=
  Vector.__init__ [VVec (_p self)] ∅.

Definition direction (self : Line) : result Vector :=
  Vector.__init__ [VVec (_d self)] ∅.

Definition unit_direction (self : Line) : result Vector :=
  Vector.__init__ [_ud self] ∅.

Definition projected_point (self : Line) (p : value) : result value :=
  p2p ← Vector.__sub__ (_p self) p;
  a ← py_add p p2p;
  s ← py_mul (_ud self) p2p;
  b ← py_mul s (_ud self);
  py_sub a b.

Section Tolerance.

(** [m3d.utils.eps], which is not among the sources: a parameter. *)
Variable eps : float.

(** The test of lines 85 and 101. *)
Definition parallel (self line : Line) : result bool :=
  u ← py_mul (_ud self) (_ud line);
  w ← py_sub (VNum 1) u;
  py_lt_num w (10 * eps).

(** [p + ((q - p) * n / (d * n)) * d], lines 93, 110 and 111. *)
Definition foot (p q : Vector) (d n : value) : result value :=
  diff ← Vector.__sub__ q (VVec p);
  num ← py_mul diff n;
  den ← py_mul d n;
  t ← py_truediv num den;
  s ← py_mul t d;
  Vector.__add__ p s.

Definition projected_line (self line : Line) : result value :=
  par ← parallel self line;
  if par : bool then pt ← point self; Ok (VVec pt)
  else
    let p1 := _p self in
    let p2 := _p line in
    let d1 := _ud self in
    let d2 := _ud line in
    c ← call_cross d1 d2;
    n2 ← call_cross d2 c;
    foot p1 p2 d1 n2.

Definition nearest_points (self line : Line) : result value :=
  par ← parallel self line;
  if par : bool then pt ← point self; Ok (VVec pt)
  else
    let p1 := _p self in
    let p2 := _p line in
    let d1 := _ud self in
    let d2 := _ud line in
    c1 ← call_cross d2 d1;
    n1 ← call_cross d1 c1;
    c2 ← call_cross d1 d2;
    n2 ← call_cross d2 c2;
    q1 ← foot p1 p2 d1 n2;
    q2 ← foot p2 p1 d2 n1;
    Ok (VSeq [q1; q2]).

End Tolerance.

End Line.

(** * Vocabulary of the statements *)

(** Tuples of three numbers, as the examples write them. *)
Definition triple (x y z : float) : value := VSeq [VNum x; VNum y; VNum z].

(** [Vector(arg)], one argument and no keyword. *)
Abbreviation Vector_of arg := (Vector.__init__ [arg] ∅).

(** The argument shapes the specification accepts, in its words: 3 scalars;
    2 scalars; a 3-element or 2-element numeric sequence; another Vector. *)
Definition spec_accepted_shape (args : list value) : bool :=
  match args with
  | [_; _; _] | [_; _] => utils.isNumTypes args
  | [VSeq items] =>
      (Nat.eqb (length items) 3 || Nat.eqb (length items) 2)
      && utils.isNumTypes items
  | [VVec _] => true
  | _ => false
  end.

Definition origin : ndarray := np.zeros.

Definition nans : ndarray := mkArray nan nan nan.

(** A zero vector: each component compares equal to 0 (it is +0 or -0). *)
Definition is_zero (v : Vector) : bool :=
  (a0 (_data v) =? 0) && (a1 (_data v) =? 0) && (a2 (_data v) =? 0).

(** The two lines of [_test] in line.py: skew and not parallel. *)
Definition test_l1 : gmap string value :=
  {[ "point" := triple 0 1 1; "direction" := triple 0 0.1 1 ]}.

Definition test_l2 : gmap string value :=
  {[ "point" := triple 1 1 0.1; "direction" := triple 0 1 0 ]}.

Definition line_of (p d : ndarray) : Line :=
  mkLine (mkVector p 1) (mkVector d 1) (VMethod (mkVector d 1) "normalized").

(** A vector none of whose components is infinite or NaN. *)
Definition finite_vector (v : Vector) : bool :=
  is_finite (a0 (_data v)) && is_finite (a1 (_data v)) && is_finite (a2 (_data v)).

(** A vector with a NaN component. *)
Definition nan_vector (v : Vector) : bool :=
  is_nan (a0 (_data v)) || is_nan (a1 (_data v)) || is_nan (a2 (_data v)).

(** Component [j] of an array and entry [(i, j)] of a matrix. *)
Definition component (a : ndarray) (j : nat) : float :=
  match j with
  | O => a0 a
  | S O => a1 a
  | _ => a2 a
  end.

Definition entry (m : matrix) (i j : nat) : float :=
  match i with
  | O => component (row0 m) j
  | S O => component (row1 m) j
  | _ => component (row2 m) j
  end.

Definition transpose (m : matrix) : matrix :=
  mkMatrix (mkArray (a0 (row0 m)) (a0 (row1 m)) (a0 (row2 m)))
           (mkArray (a1 (row0 m)) (a1 (row1 m)) (a1 (row2 m)))
           (mkArray (a2 (row0 m)) (a2 (row1 m)) (a2 (row2 m))).

(** The keywords [Line.__init__] looks up. *)
Definition line_keywords : list string :=
  [ "point_direction"; "pd_pair"; "point"; "direction"; "point0"; "point1" ].

(** Classes of binary64 values, on their specification. *)
Definition SFisnan (x : spec_float) : bool :=
  match x with S754_nan => true | _ => false end.

Definition SFfinite (x : spec_float) : bool :=
  match x with S754_zero _ | S754_finite _ _ _ => true | _ => false end.

Definition SFzero_or_nan (x : spec_float) : bool :=
  match x with S754_zero _ | S754_nan => true | _ => false end.

Definition SFnonneg (x : spec_float) : bool :=
  match x with
  | S754_zero _ | S754_infinity false | S754_finite false _ _ => true
  | _ => false
  end.

(** * Properties *)

(** ** Construction of a Vector *)

Lemma array_of_numbers (x y z : value) :
  utils.isNumTypes [x; y; z] = true -> raises (np.array x y z) = false.
Proof.
  destruct x, y, z; simpl; intros H; try discriminate H; reflexivity.
Qed.

Lemma init_copies_vector (other : Vector) (kwargs : gmap string value) :
  Vector.__init__ [VVec other] kwargs
  = Ok (mkVector (_data other) (Vector.position_flag kwargs)).
Proof. reflexivity. Qed.

Lemma of_array_ok (a : ndarray) : Vector.of_array a = Ok (mkVector a 1).
Proof. destruct a; reflexivity. Qed.

Lemma init_flag (args : list value) (kwargs : gmap string value) (v : Vector) :
  Vector.__init__ args kwargs = Ok v ->
  _isPosition v = Vector.position_flag kwargs.
Proof.
  unfold Vector.__init__.
  match goal with |- (mbind _ ?blk) = _ -> _ => destruct blk as [data|e] end;
    simpl; intros H; inversion H; reflexivity.
Qed.

Lemma init_accepted (args : list value) (kwargs : gmap string value) :
  spec_accepted_shape args = true ->
  raises (Vector.__init__ args kwargs) = false.
Proof.
  destruct args as [|a [|b [|c [|d rest]]]]; simpl; try discriminate.
  - (* one argument *)
    destruct a as [| |items|other|]; try discriminate; [|reflexivity].
    destruct items as [|x [|y [|z [|w more]]]]; simpl; try discriminate.
    + destruct x, y; simpl; intros H; try discriminate H; reflexivity.
    + destruct x, y, z; simpl; intros H; try discriminate H; reflexivity.
  - (* two arguments *)
    destruct a, b; simpl; intros H; try discriminate H; reflexivity.
  - (* three arguments *)
    destruct a, b, c; simpl; intros H; try discriminate H; reflexivity.
  - (* four or more *)
    destruct a; discriminate.
Qed.

Lemma init_other_arity (args : list value) (kwargs : gmap string value) :
  length args <> 1%nat -> spec_accepted_shape args = false ->
  Vector.__init__ args kwargs
  = Ok (mkVector np.zeros (Vector.position_flag kwargs)).
Proof.
  destruct args as [|a [|b [|c [|d rest]]]]; simpl; intros Hlen Hacc;
    try reflexivity.
  - now contradict Hlen.
  - destruct a, b; try discriminate Hacc; reflexivity.
  - destruct a, b, c; try discriminate Hacc; reflexivity.
Qed.

Lemma init_single_refused (arg : value) (kwargs : gmap string value) :
  spec_accepted_shape [arg] = false ->
  (forall x y, arg <> VSeq [x; y]) ->
  Vector.__init__ [arg] kwargs
  = Raise (VectorError "__init__ : could not create vector on argument").
Proof.
  intros Hacc Hpair.
  destruct arg as [| |items|other|]; try reflexivity; [|discriminate Hacc].
  destruct items as [|x [|y [|z [|w more]]]]; try reflexivity.
  - exfalso. exact (Hpair x y eq_refl).
  - destruct x, y, z; try discriminate Hacc; reflexivity.
Qed.

(** C8, as the claim states it, fails: called without arguments, with four
    arguments, or with three arguments that are not numbers, the constructor
    raises nothing and returns the zero vector. *)
Lemma init_wrong_shape_constructs :
  Vector.__init__ [] ∅ = Ok (mkVector np.zeros 1)
  /\ Vector.__init__ [VNum 1; VNum 2; VNum 3; VNum 4] ∅ = Ok (mkVector np.zeros 1)
  /\ Vector.__init__ [VNone; triple 1 2 3; VNone] ∅ = Ok (mkVector np.zeros 1).
Proof. repeat split; reflexivity. Qed.

(** C8, amended: construction succeeds on every accepted shape; with any
    number of arguments other than one and no accepted shape (none, four or
    more, two or three that are not all numbers) it raises nothing and
    yields the zero vector; a single argument of no accepted shape, unless it
    is a 2-element sequence, raises Vector.Error. *)
Theorem init_outcomes :
  (forall args kwargs,
      spec_accepted_shape args = true ->
      raises (Vector.__init__ args kwargs) = false)
  /\ (forall args kwargs,
      length args <> 1%nat -> spec_accepted_shape args = false ->
      Vector.__init__ args kwargs
      = Ok (mkVector np.zeros (Vector.position_flag kwargs)))
  /\ (forall arg kwargs,
      spec_accepted_shape [arg] = false ->
      (forall x y, arg <> VSeq [x; y]) ->
      Vector.__init__ [arg] kwargs
      = Raise (VectorError "__init__ : could not create vector on argument")).
Proof.
  split; [|split].
  - exact init_accepted.
  - exact init_other_arity.
  - exact init_single_refused.
Qed.

Lemma init_outcomes_witness :
  raises (Vector.__init__ [triple 1 2 3] ∅) = false
  /\ Vector.__init__ [VNone; VNone] ∅ = Ok (mkVector np.zeros 1)
  /\ Vector.__init__ [VNone] ∅
     = Raise (VectorError "__init__ : could not create vector on argument").
Proof.
  destruct init_outcomes as [Hacc [Hzero Hraise]].
  split; [|split].
  - apply Hacc. reflexivity.
  - exact (Hzero [VNone; VNone] ∅ ltac:(discriminate) eq_refl).
  - apply Hraise; [reflexivity | discriminate].
Defined.

(** ** The position tag *)







(** ** Operands that are not Vectors *)

(** C7: subtraction does not do what addition does.  For an operand that is
    not a Vector, [__add__] and [__iadd__] raise Vector.Error and leave the
    receiver as it was, but [__sub__] returns None and [__isub__] returns the
    unchanged receiver, both without any error. *)
Theorem sub_of_non_vector_is_silent (self : Vector) (other : value) :
  Vector.isVector other = false ->
  Vector.__sub__ self other = Ok VNone
  /\ Vector.__isub__ self other = Vector.mkInplace self (Ok (VVec self))
  /\ Vector.__add__ self other
     = Raise (VectorError "__add__ : Could not add non-vector")
  /\ Vector.__iadd__ self other
     = Vector.mkInplace self
         (Raise (VectorError "__iadd__ : Could not add non-vector")).
Proof.
  destruct other; simpl; intros H; try discriminate H; repeat split.
Qed.

Lemma sub_of_non_vector_is_silent_witness :
  Vector.__sub__ (mkVector (mkArray 1 2 3) 1) (VNum 5) = Ok VNone
  /\ Vector.__isub__ (mkVector (mkArray 1 2 3) 1) (VNum 5)
     = Vector.mkInplace (mkVector (mkArray 1 2 3) 1)
         (Ok (VVec (mkVector (mkArray 1 2 3) 1))).
Proof.
  destruct (sub_of_non_vector_is_silent (mkVector (mkArray 1 2 3) 1) (VNum 5))
    as [Hsub [Hisub _]]; [reflexivity|].
  split; assumption.
Defined.

(** ** Equality *)

(** C6: comparing two Vectors raises NameError, whatever the tolerance and
    the vectors: line 132 reads [utils._eps], and vector.py binds [_eps] but
    no name [utils]. *)
Theorem eq_raises_NameError (_eps : float) (self other : Vector) :
  Vector.__eq__ _eps self (VVec other) = Raise (NameError "utils").
Proof. reflexivity. Qed.

(** ** Order on binary64 floats *)

Section FloatOrder.

Lemma SFcompare_swap (x y : spec_float) :
  SFcompare y x = option_map CompOpp (SFcompare x y).
Proof.
  destruct x as [sx|sx| |sx mx ex], y as [sy|sy| |sy my ey]; simpl;
    try reflexivity;
    try (destruct sx; reflexivity);
    try (destruct sy; reflexivity);
    try (destruct sx, sy; reflexivity).
  destruct sx, sy; simpl; try reflexivity;
    rewrite (Z.compare_antisym ex ey);
    destruct (ex ?= ey)%Z; simpl; try reflexivity;
    rewrite (Pos.compare_cont_antisym mx my Eq); reflexivity.
Qed.

Lemma not_nan_spec (x : float) : is_nan x = false -> Prim2SF x <> S754_nan.
Proof.
  unfold is_nan. rewrite FloatAxioms.eqb_spec. unfold SFeqb.
  intros H E. rewrite E in H. discriminate H.
Qed.

Lemma SFcompare_defined (x y : spec_float) :
  x <> S754_nan -> y <> S754_nan -> SFcompare x y <> None.
Proof.
  destruct x, y; simpl; intros Hx Hy; congruence.
Qed.

(** For numbers, "not less" is "greater or equal". *)
Lemma ltb_false_leb (x y : float) :
  is_nan x = false -> is_nan y = false ->
  (x <? y) = false -> (y <=? x) = true.
Proof.
  intros Hx Hy. rewrite FloatAxioms.ltb_spec, FloatAxioms.leb_spec.
  unfold SFltb, SFleb.
  rewrite (SFcompare_swap (Prim2SF x) (Prim2SF y)).
  pose proof (SFcompare_defined _ _ (not_nan_spec x Hx) (not_nan_spec y Hy)) as D.
  destruct (SFcompare (Prim2SF x) (Prim2SF y)) as [[ | | ]|]; simpl;
    congruence.
Qed.

(** Rocq's binary64 floats have a single NaN. *)
Lemma is_nan_eq (c : float) : is_nan c = true -> c = nan.
Proof.
  unfold is_nan. rewrite FloatAxioms.eqb_spec. unfold SFeqb.
  pose proof (SF2Prim_Prim2SF c) as E.
  destruct (Prim2SF c) as [s|s| |s m e]; simpl.
  - discriminate.
  - destruct s; discriminate.
  - intros _. rewrite <- E. reflexivity.
  - rewrite Z.compare_refl, Pos.compare_cont_refl. destruct s; discriminate.
Qed.

End FloatOrder.

(** ** The angle *)

Lemma clamp_range (c : float) :
  is_nan c = false ->
  (-1 <=? Vector.clamp c) = true /\ (Vector.clamp c <=? 1) = true.
Proof.
  intros Hc. unfold Vector.clamp.
  destruct (1 <? c) eqn:Hhigh; [split; reflexivity|].
  destruct (c <? -1) eqn:Hlow; [split; reflexivity|].
  split.
  - apply (ltb_false_leb c (-1)); [assumption | reflexivity | assumption].
  - apply (ltb_false_leb 1 c); [reflexivity | assumption | assumption].
Qed.

(** A cosine that rounding pushed above 1 is cut back to 1. *)
Example clamp_overshoot : Vector.clamp 1.0000000002 = 1.
Proof. reflexivity. Qed.

(** C5, as the claim states it, fails: for the non-zero vector (1e200, 0, 0)
    the squared length overflows, the quotient is inf/inf, and the argument
    handed to arccos is NaN, not a number of [-1, 1]; likewise by underflow for
    (1e-200, 0, 0). *)
Lemma angle_argument_nan :
  Vector.clamp (Vector.costheta (mkVector (mkArray 1e200 0 0) 1)
                                (mkVector (mkArray 1e200 0 0) 1)) = nan
  /\ Vector.length (mkVector (mkArray 1e200 0 0) 1) = infinity
  /\ Vector.clamp (Vector.costheta (mkVector (mkArray 1e-200 0 0) 1)
                                   (mkVector (mkArray 1e-200 0 0) 1)) = nan.
Proof. repeat split; reflexivity. Qed.

(** C5, amended: angle hands to arccos the computed cosine cut to 1 when it
    exceeds 1 and to -1 when it is below -1; whenever the computed cosine is
    not NaN the argument of arccos lies in [-1, 1], and a NaN cosine is handed
    to arccos as it is. *)
Theorem angle_argument_clamped
    (arccos : float -> float) (self other : Vector) :
  exists c : float,
    Vector.angle arccos self (VVec other) = Ok (arccos c)
    /\ c = Vector.clamp (Vector.costheta self other)
    /\ if is_nan (Vector.costheta self other)
       then c = nan
       else (-1 <=? c) = true /\ (c <=? 1) = true.
Proof.
  exists (Vector.clamp (Vector.costheta self other)).
  split; [reflexivity|]. split; [reflexivity|].
  destruct (is_nan (Vector.costheta self other)) eqn:Hnum.
  - rewrite (is_nan_eq _ Hnum). reflexivity.
  - apply clamp_range. exact Hnum.
Qed.

Lemma angle_argument_clamped_witness :
  exists c : float,
    Vector.angle (fun x => x) (mkVector (mkArray 1 0 0) 1)
      (VVec (mkVector (mkArray 1 1 0) 1)) = Ok c
    /\ c = Vector.clamp (Vector.costheta (mkVector (mkArray 1 0 0) 1)
                                         (mkVector (mkArray 1 1 0) 1))
    /\ (-1 <=? c) = true /\ (c <=? 1) = true.
Proof.
  exact (angle_argument_clamped (fun x => x)
           (mkVector (mkArray 1 0 0) 1) (mkVector (mkArray 1 1 0) 1)).
Defined.

(** ** Normalization of the zero vector *)

(** C4, as the claim states it, fails: normalizing the zero vector and
    constructing a Line on a zero direction both return, without error. *)
Lemma zero_vector_raises_nothing :
  Vector.normalize (mkVector origin 1) = mkVector nans 1
  /\ Vector.normalized (mkVector origin 1) = Ok (mkVector nans 1)
  /\ raises (Line.__init__
               {[ "point" := triple 0 0 0; "direction" := triple 0 0 0 ]})
     = false
  /\ raises (Line.__init__
               {[ "point0" := triple 1 2 3; "point1" := triple 1 2 3 ]})
     = false.
Proof. repeat split; reflexivity. Qed.

Lemma normalized_total (self : Vector) :
  Vector.normalized self
  = Ok (Vector.normalize (mkVector (_data self) 1)).
Proof. reflexivity. Qed.

Lemma eqb_zero (x : float) : (x =? 0) = true -> x = 0 \/ x = (-0).
Proof.
  rewrite FloatAxioms.eqb_spec. unfold SFeqb.
  change (Prim2SF 0) with (S754_zero false).
  pose proof (SF2Prim_Prim2SF x) as E.
  destruct (Prim2SF x) as [s|s| |s m e]; simpl; try discriminate;
    try (destruct s; discriminate).
  intros _. rewrite <- E. destruct s; [right | left]; reflexivity.
Qed.

Lemma zero_vector_length (v : Vector) :
  is_zero v = true ->
  Vector.length v = 0 /\ np.divide (_data v) 0 = nans.
Proof.
  unfold is_zero. destruct v as [[x y z] flag]. simpl.
  intros H. apply andb_prop in H as [H Hz]. apply andb_prop in H as [Hx Hy].
  destruct (eqb_zero x Hx), (eqb_zero y Hy), (eqb_zero z Hz); subst;
    split; reflexivity.
Qed.

Lemma normalize_zero (v : Vector) :
  is_zero v = true -> Vector.normalize v = mkVector nans (_isPosition v).
Proof.
  intros H. destruct (zero_vector_length v H) as [Hlen Hdiv].
  unfold Vector.normalize. rewrite Hlen. simpl. rewrite Hdiv. reflexivity.
Qed.

(** ** Construction of a Line *)

Lemma init_point_direction (point direction : value) (p d : Vector) :
  Vector_of point = Ok p -> Vector_of direction = Ok d ->
  Line.__init__ {[ "point" := point; "direction" := direction ]}
  = Ok (mkLine p d (VMethod d "normalized")).
Proof.
  intros Hp Hd. unfold Line.__init__.
  change (({[ "point" := point; "direction" := direction ]}
             : gmap string value) !! "point_direction") with (@None value).
  change (({[ "point" := point; "direction" := direction ]}
             : gmap string value) !! "pd_pair") with (@None value).
  change (({[ "point" := point; "direction" := direction ]}
             : gmap string value) !! "point") with (Some point).
  change (({[ "point" := point; "direction" := direction ]}
             : gmap string value) !! "direction") with (Some direction).
  cbv beta iota. rewrite Hp. simpl. rewrite Hd. reflexivity.
Qed.

Lemma init_two_points (point0 point1 : value) (p q : Vector) :
  Vector_of point0 = Ok p -> Vector_of point1 = Ok q ->
  Line.__init__ {[ "point0" := point0; "point1" := point1 ]}
  = let d := mkVector (np.subtract (_data q) (_data p)) 1 in
    Ok (mkLine p d (VMethod d "normalized")).
Proof.
  intros Hp Hq. unfold Line.__init__.
  change (({[ "point0" := point0; "point1" := point1 ]}
             : gmap string value) !! "point_direction") with (@None value).
  change (({[ "point0" := point0; "point1" := point1 ]}
             : gmap string value) !! "pd_pair") with (@None value).
  change (({[ "point0" := point0; "point1" := point1 ]}
             : gmap string value) !! "point") with (@None value).
  change (({[ "point0" := point0; "point1" := point1 ]}
             : gmap string value) !! "direction") with (@None value).
  change (({[ "point0" := point0; "point1" := point1 ]}
             : gmap string value) !! "point0") with (Some point0).
  change (({[ "point0" := point0; "point1" := point1 ]}
             : gmap string value) !! "point1") with (Some point1).
  cbv beta iota. rewrite Hp. simpl. rewrite Hq. reflexivity.
Qed.

(** Whatever the keywords, a constructed Line holds in [_ud] the method
    [normalized] of its direction, bound and not called. *)
Lemma init_ud (kwargs : gmap string value) (l : Line) :
  Line.__init__ kwargs = Ok l -> _ud l = VMethod (_d l) "normalized".
Proof.
  unfold Line.__init__.
  match goal with |- (mbind _ ?blk) = _ -> _ => destruct blk as [[p d]|e] end;
    simpl; [|discriminate].
  destruct d; simpl; intros H; inversion H; reflexivity.
Qed.

Lemma init_pair (point direction : value) (p d : Vector) :
  Vector_of point = Ok p -> Vector_of direction = Ok d ->
  Line.__init__ {[ "point_direction" := VSeq [point; direction] ]}
  = Ok (mkLine p d (VMethod d "normalized")).
Proof.
  intros Hp Hd. unfold Line.__init__.
  change (({[ "point_direction" := VSeq [point; direction] ]}
             : gmap string value) !! "point_direction")
    with (Some (VSeq [point; direction])).
  cbv beta iota. unfold Line.pd_pair, iterate.
  cbn [mbind result_bind mapM]. rewrite Hp, Hd. reflexivity.
Qed.

(** C4, amended: normalizing a zero vector raises nothing and leaves NaN in
    the three components; constructing a Line whose direction is a zero
    vector, in any of the three argument forms, raises nothing and stores
    that direction. *)
Theorem zero_vector_normalizes_to_nan
    (v : Vector) (point direction point1 : value) (p q : Vector) :
  is_zero v = true ->
  Vector_of point = Ok p ->
  Vector_of direction = Ok (mkVector (_data v) 1) ->
  Vector_of point1 = Ok q ->
  np.subtract (_data q) (_data p) = _data v ->
  let l := mkLine p (mkVector (_data v) 1)
             (VMethod (mkVector (_data v) 1) "normalized") in
  Vector.normalize v = mkVector nans (_isPosition v)
  /\ Vector.normalized v = Ok (mkVector nans 1)
  /\ Line.__init__ {[ "point_direction" := VSeq [point; direction] ]} = Ok l
  /\ Line.__init__ {[ "point" := point; "direction" := direction ]} = Ok l
  /\ Line.__init__ {[ "point0" := point; "point1" := point1 ]} = Ok l.
Proof.
  intros Hzero Hp Hd Hq Hdiff l. repeat split.
  - apply normalize_zero. exact Hzero.
  - rewrite normalized_total.
    rewrite (normalize_zero (mkVector (_data v) 1) Hzero). reflexivity.
  - apply init_pair; assumption.
  - apply init_point_direction; assumption.
  - rewrite (init_two_points point point1 p q Hp Hq). simpl.
    rewrite Hdiff. reflexivity.
Qed.

Lemma zero_vector_normalizes_to_nan_witness :
  let l := mkLine (mkVector (mkArray 1 2 3) 1) (mkVector (mkArray 0 0 0) 1)
             (VMethod (mkVector (mkArray 0 0 0) 1) "normalized") in
  Vector.normalize (mkVector (mkArray 0 0 0) 0) = mkVector nans 0
  /\ Vector.normalized (mkVector (mkArray 0 0 0) 0) = Ok (mkVector nans 1)
  /\ Line.__init__ {[ "point_direction" := VSeq [triple 1 2 3; triple 0 0 0] ]}
     = Ok l
  /\ Line.__init__ {[ "point" := triple 1 2 3; "direction" := triple 0 0 0 ]}
     = Ok l
  /\ Line.__init__ {[ "point0" := triple 1 2 3; "point1" := triple 1 2 3 ]}
     = Ok l.
Proof.
  apply (zero_vector_normalizes_to_nan (mkVector (mkArray 0 0 0) 0)
           (triple 1 2 3) (triple 0 0 0) (triple 1 2 3)
           (mkVector (mkArray 1 2 3) 1) (mkVector (mkArray 1 2 3) 1));
    reflexivity.
Defined.

(** C9: a Line built from two points is the Line built from the first point
    and a direction that holds the difference of the two points; so are the
    Lines of [point0=(0,0,0), point1=(1,0,0)] and of
    [point=(0,0,0), direction=(1,0,0)]. *)
Theorem two_points_same_as_point_direction
    (point0 point1 direction : value) (p q d : Vector) :
  Vector_of point0 = Ok p ->
  Vector_of point1 = Ok q ->
  Vector_of direction = Ok d ->
  _data d = np.subtract (_data q) (_data p) ->
  exists l : Line,
    Line.__init__ {[ "point0" := point0; "point1" := point1 ]} = Ok l
    /\ Line.__init__ {[ "point" := point0; "direction" := direction ]} = Ok l
    /\ _p l = p /\ _d l = d.
Proof.
  intros Hp Hq Hd Hdiff.
  exists (mkLine p d (VMethod d "normalized")).
  assert (Hflag : _isPosition d = 1%Z) by exact (init_flag _ _ _ Hd).
  assert (Ed : d = mkVector (np.subtract (_data q) (_data p)) 1).
  { destruct d as [data flag]; simpl in *. subst. reflexivity. }
  split; [|split; [|split; reflexivity]].
  - rewrite (init_two_points point0 point1 p q Hp Hq). simpl.
    rewrite <- Ed. reflexivity.
  - exact (init_point_direction point0 direction p d Hp Hd).
Qed.

Lemma two_points_same_as_point_direction_witness :
  exists l : Line,
    Line.__init__ {[ "point0" := triple 0 0 0; "point1" := triple 1 0 0 ]} = Ok l
    /\ Line.__init__ {[ "point" := triple 0 0 0; "direction" := triple 1 0 0 ]}
       = Ok l
    /\ _p l = mkVector (mkArray 0 0 0) 1 /\ _d l = mkVector (mkArray 1 0 0) 1.
Proof.
  apply (two_points_same_as_point_direction
           (triple 0 0 0) (triple 1 0 0) (triple 1 0 0)
           (mkVector (mkArray 0 0 0) 1) (mkVector (mkArray 1 0 0) 1)
           (mkVector (mkArray 1 0 0) 1)); reflexivity.
Defined.

(** ** The unit direction *)

Lemma method_is_no_vector (v : Vector) (name : string) (kwargs : gmap string value) :
  Vector.__init__ [VMethod v name] kwargs
  = Raise (VectorError "__init__ : could not create vector on argument").
Proof. reflexivity. Qed.

Lemma method_product (v w : Vector) (m n : string) :
  py_mul (VMethod v m) (VMethod w n)
  = Raise (TypeError "unsupported operand type(s) for *").
Proof. reflexivity. Qed.

Lemma parallel_raises (eps : float) (k1 k2 : gmap string value) (l1 l2 : Line) :
  Line.__init__ k1 = Ok l1 -> Line.__init__ k2 = Ok l2 ->
  Line.parallel eps l1 l2
  = Raise (TypeError "unsupported operand type(s) for *").
Proof.
  intros H1 H2. unfold Line.parallel.
  rewrite (init_ud k1 l1 H1), (init_ud k2 l2 H2), method_product.
  reflexivity.
Qed.

(** C1: no constructed Line holds a unit vector.  Line 56 reads
    [self._d.normalized] without calling it, so [_ud] is the bound method,
    and the accessor [unit_direction], which hands it to the Vector
    constructor, raises Vector.Error. *)
Theorem unit_direction_raises (kwargs : gmap string value) (l : Line) :
  Line.__init__ kwargs = Ok l ->
  _ud l = VMethod (_d l) "normalized"
  /\ Line.unit_direction l
     = Raise (VectorError "__init__ : could not create vector on argument").
Proof.
  intros H. pose proof (init_ud kwargs l H) as Hud.
  split; [exact Hud|].
  unfold Line.unit_direction. rewrite Hud. apply method_is_no_vector.
Qed.

Lemma unit_direction_raises_witness :
  Line.__init__ {[ "point" := triple 0 0 0; "direction" := triple 1 0 0 ]}
  = Ok (line_of (mkArray 0 0 0) (mkArray 1 0 0))
  /\ Line.unit_direction (line_of (mkArray 0 0 0) (mkArray 1 0 0))
     = Raise (VectorError "__init__ : could not create vector on argument").
Proof.
  split; [reflexivity|].
  apply (unit_direction_raises
           {[ "point" := triple 0 0 0; "direction" := triple 1 0 0 ]}).
  reflexivity.
Defined.

(** C2: [nearest_points] returns no pair.  For any two constructed Lines and
    any tolerance, the parallelism test of line 101 multiplies the two bound
    methods held in [_ud] and raises TypeError (the defect of line 56). *)
Theorem nearest_points_raises
    (eps : float) (k1 k2 : gmap string value) (l1 l2 : Line) :
  Line.__init__ k1 = Ok l1 -> Line.__init__ k2 = Ok l2 ->
  Line.nearest_points eps l1 l2
  = Raise (TypeError "unsupported operand type(s) for *").
Proof.
  intros H1 H2. unfold Line.nearest_points.
  rewrite (parallel_raises eps k1 k2 l1 l2 H1 H2). reflexivity.
Qed.

Lemma nearest_points_raises_witness :
  Line.__init__ test_l1 = Ok (line_of (mkArray 0 1 1) (mkArray 0 0.1 1))
  /\ Line.__init__ test_l2 = Ok (line_of (mkArray 1 1 0.1) (mkArray 0 1 0))
  /\ Line.nearest_points 1e-5
       (line_of (mkArray 0 1 1) (mkArray 0 0.1 1))
       (line_of (mkArray 1 1 0.1) (mkArray 0 1 0))
     = Raise (TypeError "unsupported operand type(s) for *").
Proof.
  split; [reflexivity|]. split; [reflexivity|].
  apply (nearest_points_raises 1e-5 test_l1 test_l2); reflexivity.
Defined.

(** C3: [projected_line] does not return [self.point] for parallel lines.
    For any two constructed Lines and any tolerance, the parallelism test of
    line 85 raises TypeError before either branch is taken (the defect of
    line 56). *)
Theorem projected_line_raises
    (eps : float) (k1 k2 : gmap string value) (l1 l2 : Line) :
  Line.__init__ k1 = Ok l1 -> Line.__init__ k2 = Ok l2 ->
  Line.projected_line eps l1 l2
  = Raise (TypeError "unsupported operand type(s) for *").
Proof.
  intros H1 H2. unfold Line.projected_line.
  rewrite (parallel_raises eps k1 k2 l1 l2 H1 H2). reflexivity.
Qed.

Lemma projected_line_raises_witness :
  Line.__init__ {[ "point" := triple 0 0 0; "direction" := triple 1 0 0 ]}
  = Ok (line_of (mkArray 0 0 0) (mkArray 1 0 0))
  /\ Line.__init__ {[ "point" := triple 0 1 0; "direction" := triple 2 0 0 ]}
     = Ok (line_of (mkArray 0 1 0) (mkArray 2 0 0))
  /\ Line.projected_line 1e-5
       (line_of (mkArray 0 0 0) (mkArray 1 0 0))
       (line_of (mkArray 0 1 0) (mkArray 2 0 0))
     = Raise (TypeError "unsupported operand type(s) for *").
Proof.
  split; [reflexivity|]. split; [reflexivity|].
  apply (projected_line_raises 1e-5
           {[ "point" := triple 0 0 0; "direction" := triple 1 0 0 ]}
           {[ "point" := triple 0 1 0; "direction" := triple 2 0 0 ]});
    reflexivity.
Defined.

(** * Further properties of the two files *)

(** ** Construction of a Vector, continued *)

(** X1: the scalar and the sequence forms of the constructor agree, and the
    two-number forms are the three-number forms with z = 0, under any
    keywords. *)
Theorem init_forms_agree (x y z : float) (kwargs : gmap string value) :
  Vector.__init__ [VNum x; VNum y; VNum z] kwargs
  = Ok (mkVector (mkArray x y z) (Vector.position_flag kwargs))
  /\ Vector.__init__ [triple x y z] kwargs
     = Vector.__init__ [VNum x; VNum y; VNum z] kwargs
  /\ Vector.__init__ [VNum x; VNum y] kwargs
     = Vector.__init__ [VNum x; VNum y; VNum 0] kwargs
  /\ Vector.__init__ [VSeq [VNum x; VNum y]] kwargs
     = Vector.__init__ [VNum x; VNum y; VNum 0] kwargs.
Proof. repeat split; reflexivity. Qed.

(** X2: the constructor reads no keyword but 'position': any other keyword
    is ignored, whatever its value. *)
Theorem init_ignores_other_keywords
    (args : list value) (kwargs : gmap string value) (k : string) (v : value) :
  k <> "position" ->
  Vector.__init__ args (<[k := v]> kwargs) = Vector.__init__ args kwargs.
Proof.
  intros Hk. unfold Vector.__init__, Vector.position_flag.
  rewrite lookup_insert_ne by exact Hk. reflexivity.
Qed.

Lemma init_ignores_other_keywords_witness :
  Vector.__init__ [VNum 1; VNum 2] (<["frame" := VNone]> {[ "position" := VNum 0 ]})
  = Vector.__init__ [VNum 1; VNum 2] {[ "position" := VNum 0 ]}.
Proof.
  apply (init_ignores_other_keywords [VNum 1; VNum 2]). discriminate.
Defined.

(** X3: constructing from a constructed Vector under the same keywords gives
    that Vector back, and a copy of a copy is the copy. *)
Theorem copy_construction_round_trip
    (args : list value) (kwargs : gmap string value) (v : Vector) :
  Vector.__init__ args kwargs = Ok v ->
  Vector.__init__ [VVec v] kwargs = Ok v
  /\ (c ← Vector.__copy__ v; Vector.__copy__ c) = Vector.__copy__ v.
Proof.
  intros H. split; [|reflexivity].
  rewrite init_copies_vector, <- (init_flag args kwargs v H).
  destruct v; reflexivity.
Qed.

Lemma copy_construction_round_trip_witness :
  Vector.__init__ [VVec (mkVector (mkArray 1 2 0) 0)] {[ "position" := VNone ]}
  = Ok (mkVector (mkArray 1 2 0) 0)
  /\ (c ← Vector.__copy__ (mkVector (mkArray 1 2 0) 0); Vector.__copy__ c)
     = Vector.__copy__ (mkVector (mkArray 1 2 0) 0).
Proof.
  apply (copy_construction_round_trip [VNum 1; VNum 2]). reflexivity.
Defined.

(** X4: canCreateOn does not predict the constructor.  For a lone number it
    answers True although the constructor raises Vector.Error, and for four
    or more arguments it answers False although the constructor returns the
    zero vector. *)
Theorem canCreateOn_disagrees_with_init :
  (forall (x : float) (kwargs : gmap string value),
      Vector.canCreateOn [VNum x] = Ok true
      /\ Vector.__init__ [VNum x] kwargs
         = Raise (VectorError "__init__ : could not create vector on argument"))
  /\ (forall (a b c d : value) (rest : list value) (kwargs : gmap string value),
      Vector.canCreateOn (a :: b :: c :: d :: rest) = Ok false
      /\ Vector.__init__ (a :: b :: c :: d :: rest) kwargs
         = Ok (mkVector np.zeros (Vector.position_flag kwargs))).
Proof.
  split.
  - intros x kwargs. split; reflexivity.
  - intros a b c d rest kwargs. split; reflexivity.
Qed.

(** X5: canCreateOn looks through one-element nesting: its answer for a
    single sequence argument is its answer for the items of that sequence, at
    any depth; a single argument that is neither a number, a sequence nor a
    Vector makes it raise TypeError instead of answering. *)
Theorem canCreateOn_unnests (arg : list value) (other : value) :
  utils.isNumType other = false -> utils.isSequence other = false ->
  Vector.isVector other = false ->
  Vector.canCreateOn [VSeq arg] = Vector.canCreateOn arg
  /\ Vector.canCreateOn [VSeq [VSeq arg]] = Vector.canCreateOn arg
  /\ Vector.canCreateOn [other]
     = Raise (TypeError "argument after * must be an iterable").
Proof.
  intros Hnum Hseq Hvec. repeat split.
  destruct other; try discriminate; reflexivity.
Qed.

Lemma canCreateOn_unnests_witness :
  Vector.canCreateOn [VSeq [VNum 1; VNum 2; VNum 3]]
  = Vector.canCreateOn [VNum 1; VNum 2; VNum 3]
  /\ Vector.canCreateOn [VSeq [VSeq [VNum 1; VNum 2; VNum 3]]]
     = Vector.canCreateOn [VNum 1; VNum 2; VNum 3]
  /\ Vector.canCreateOn [VNone]
     = Raise (TypeError "argument after * must be an iterable").
Proof.
  apply (canCreateOn_unnests [VNum 1; VNum 2; VNum 3] VNone); reflexivity.
Defined.

(** ** Algebra of binary64 floats *)

Section FloatAlgebra.

Implicit Types x y : float.

Lemma SFmul_comm (u v : spec_float) : SF64mul u v = SF64mul v u.
Proof.
  unfold SF64mul.
  destruct u as [su|su| |su mu eu], v as [sv|sv| |sv mv ev]; simpl;
    try reflexivity; rewrite ?(xorb_comm su sv); try reflexivity.
  rewrite (Pos.mul_comm mu mv), (Z.add_comm eu ev). reflexivity.
Qed.

Lemma float_mul_comm x y : x * y = y * x.
Proof. apply Prim2SF_inj. rewrite !mul_spec. apply SFmul_comm. Qed.

Lemma SFadd_comm (u v : spec_float) : SF64add u v = SF64add v u.
Proof.
  unfold SF64add.
  destruct u as [su|su| |su mu eu], v as [sv|sv| |sv mv ev]; simpl;
    try reflexivity; try (destruct su, sv; reflexivity).
  rewrite (Z.min_comm eu ev), Z.add_comm. reflexivity.
Qed.

Lemma float_add_comm x y : x + y = y + x.
Proof. apply Prim2SF_inj. rewrite !add_spec. apply SFadd_comm. Qed.

Lemma float_opp_involutive x : - - x = x.
Proof.
  apply Prim2SF_inj. rewrite !opp_spec.
  destruct (Prim2SF x) as [s|s| |s m e]; simpl;
    rewrite ?negb_involutive; reflexivity.
Qed.

Lemma SFsub_add_opp (u v : spec_float) : SF64sub u v = SF64add u (SFopp v).
Proof.
  unfold SF64sub, SF64add.
  destruct u as [su|su| |su mu eu], v as [sv|sv| |sv mv ev]; simpl;
    try reflexivity; destruct su, sv; reflexivity.
Qed.

Lemma float_sub_add_opp x y : x - y = x + - y.
Proof.
  apply Prim2SF_inj. rewrite sub_spec, add_spec, opp_spec.
  apply SFsub_add_opp.
Qed.

Lemma is_nan_spec x : is_nan x = SFisnan (Prim2SF x).
Proof.
  unfold is_nan. rewrite FloatAxioms.eqb_spec. unfold SFeqb.
  destruct (Prim2SF x) as [s|s| |s m e]; try (destruct s; reflexivity).
  - reflexivity.
  - destruct s; simpl; rewrite Z.compare_refl, Pos.compare_cont_refl;
      reflexivity.
Qed.

Lemma is_finite_spec x : is_finite x = SFfinite (Prim2SF x).
Proof.
  unfold is_finite, is_infinity. rewrite is_nan_spec.
  rewrite FloatAxioms.eqb_spec, abs_spec. unfold SFeqb.
  change (Prim2SF infinity) with (S754_infinity false).
  destruct (Prim2SF x) as [s|s| |s m e]; try (destruct s; reflexivity).
  reflexivity.
Qed.

Lemma SFsub_diag (u : spec_float) :
  SFfinite u = true -> SF64sub u u = S754_zero false.
Proof.
  unfold SF64sub. destruct u as [s|s| |s m e]; simpl; try discriminate;
    intros _.
  - destruct s; reflexivity.
  - rewrite Z.sub_diag. reflexivity.
Qed.

(** A finite number minus itself is +0. *)
Lemma float_sub_diag x : is_finite x = true -> x - x = 0.
Proof.
  rewrite is_finite_spec. intros H. apply Prim2SF_inj. rewrite sub_spec.
  rewrite (SFsub_diag _ H). reflexivity.
Qed.

(** Rounding keeps the sign: what is rounded from a non-negative integer is
    no NaN and not negative. *)
Lemma shr_1_nonneg (mrs : shr_record) :
  (0 <= shr_m mrs)%Z -> (0 <= shr_m (shr_1 mrs))%Z.
Proof.
  destruct mrs as [m r s]. simpl. destruct m as [|p|p]; [| |lia]; intros _.
  - simpl. lia.
  - destruct p; simpl; lia.
Qed.

Lemma iter_shr_1_nonneg (p : positive) (mrs : shr_record) :
  (0 <= shr_m mrs)%Z -> (0 <= shr_m (SpecFloat.iter_pos shr_1 p mrs))%Z.
Proof.
  revert mrs. induction p as [p IH|p IH|]; intros mrs H; simpl.
  - apply IH, IH, shr_1_nonneg, H.
  - apply IH, IH, H.
  - apply shr_1_nonneg, H.
Qed.

Lemma shr_fexp_nonneg (m e : Z) (l : location) :
  (0 <= m)%Z -> (0 <= shr_m (fst (shr_fexp prec emax m e l)))%Z.
Proof.
  intros H. unfold shr_fexp, shr.
  assert (H0 : (0 <= shr_m (shr_record_of_loc m l))%Z).
  { destruct l as [|[ | | ]]; exact H. }
  destruct (fexp prec emax (Zdigits2 m + e) - e)%Z; simpl; try exact H0.
  apply iter_shr_1_nonneg, H0.
Qed.

Lemma round_nearest_even_nonneg (m : Z) (l : location) :
  (0 <= m)%Z -> (0 <= round_nearest_even m l)%Z.
Proof.
  intros H. destruct l as [|[ | | ]]; simpl; try lia.
  destruct (Z.even m); lia.
Qed.

Lemma binary_round_aux_nonneg (m e : Z) (l : location) :
  (0 <= m)%Z -> SFnonneg (binary_round_aux prec emax false m e l) = true.
Proof.
  intros H. unfold binary_round_aux.
  pose proof (shr_fexp_nonneg m e l H) as H1.
  destruct (shr_fexp prec emax m e l) as [mrs' e']. simpl in H1.
  pose proof (shr_fexp_nonneg _ e' loc_Exact
                (round_nearest_even_nonneg _ (loc_of_shr_record mrs') H1))
    as H2.
  destruct (shr_fexp prec emax
              (round_nearest_even (shr_m mrs') (loc_of_shr_record mrs'))
              e' loc_Exact) as [mrs'' e'']. simpl in H2.
  destruct (shr_m mrs'') as [|p|p]; [reflexivity| |lia].
  destruct (e'' <=? emax - prec)%Z; reflexivity.
Qed.

Lemma SFmul_self (u : spec_float) :
  SFisnan u = false -> SFnonneg (SF64mul u u) = true.
Proof.
  unfold SF64mul. destruct u as [s|s| |s m e]; simpl; try discriminate;
    intros _.
  - destruct s; reflexivity.
  - destruct s; reflexivity.
  - destruct s; apply binary_round_aux_nonneg; lia.
Qed.

Lemma SFadd_nonneg (u v : spec_float) :
  SFnonneg u = true -> SFnonneg v = true -> SFnonneg (SF64add u v) = true.
Proof.
  unfold SF64add.
  destruct u as [su|su| |su mu eu], v as [sv|sv| |sv mv ev]; simpl;
    try discriminate; try (destruct su; discriminate);
    try (destruct sv; discriminate);
    try (destruct su, sv; (discriminate || reflexivity)).
  destruct su; try discriminate. destruct sv; try discriminate. intros _ _.
  simpl. unfold binary_round.
  match goal with
  | |- context [shl_align ?a ?b (fexp ?p ?q ?c)] =>
      destruct (shl_align a b (fexp p q c)) as [mz ez]
  end.
  apply binary_round_aux_nonneg. lia.
Qed.

Lemma Zsqrtrem_nonneg (n : Z) : (0 <= n)%Z -> (0 <= fst (Z.sqrtrem n))%Z.
Proof.
  intros H. pose proof (Z.sqrtrem_spec n H) as S.
  destruct (Z.sqrtrem n) as [q r]. simpl. lia.
Qed.

Lemma SFsqrt_nonneg (u : spec_float) :
  SFnonneg u = true -> SFnonneg (SF64sqrt u) = true.
Proof.
  unfold SF64sqrt. destruct u as [s|s| |s m e]; simpl; try discriminate.
  - reflexivity.
  - destruct s; [discriminate | reflexivity].
  - destruct s; [discriminate|]. intros _.
    unfold SFsqrt_core_binary.
    match goal with
    | |- context [Z.sqrtrem ?n] =>
        assert (Hn : (0 <= n)%Z);
        [| pose proof (Zsqrtrem_nonneg n Hn) as Hq;
           destruct (Z.sqrtrem n) as [q r] ]
    end.
    + match goal with
      | |- context [match ?s with Z0 => _ | Zpos _ => _ | Zneg _ => _ end] =>
          destruct s eqn:E
      end; try lia.
      apply Z.shiftl_nonneg. lia.
    + simpl in Hq. apply binary_round_aux_nonneg. exact Hq.
Qed.

Lemma nonneg_not_nan (u : spec_float) : SFnonneg u = true -> SFisnan u = false.
Proof. destruct u; try reflexivity; discriminate. Qed.

Lemma nonneg_leb x : SFnonneg (Prim2SF x) = true -> (0 <=? x) = true.
Proof.
  rewrite FloatAxioms.leb_spec. unfold SFleb.
  change (Prim2SF 0) with (S754_zero false).
  destruct (Prim2SF x) as [s|s| |s m e]; simpl; try discriminate;
    try reflexivity.
  - destruct s; [discriminate | reflexivity].
  - destruct s; [discriminate | reflexivity].
Qed.

(** The sum of three squares is NaN exactly when a term is NaN, and is
    otherwise not negative. *)
Lemma SFsquares (u v w : spec_float) :
  let s := SF64add (SF64add (SF64mul u u) (SF64mul v v)) (SF64mul w w) in
  SFisnan s = SFisnan u || SFisnan v || SFisnan w
  /\ (SFisnan s = false -> SFnonneg s = true).
Proof.
  cbv zeta.
  destruct (SFisnan u) eqn:Hu.
  { destruct u; try discriminate. simpl. split; [reflexivity | discriminate]. }
  destruct (SFisnan v) eqn:Hv.
  { destruct v; try discriminate.
    assert (E : SF64add (SF64mul u u) (SF64mul S754_nan S754_nan) = S754_nan)
      by (destruct (SF64mul u u); reflexivity).
    rewrite E. simpl. split; [reflexivity | discriminate]. }
  destruct (SFisnan w) eqn:Hw.
  { destruct w; try discriminate.
    assert (E : SF64add (SF64add (SF64mul u u) (SF64mul v v))
                  (SF64mul S754_nan S754_nan) = S754_nan)
      by (destruct (SF64add (SF64mul u u) (SF64mul v v)); reflexivity).
    rewrite E. simpl. split; [reflexivity | discriminate]. }
  pose proof (SFadd_nonneg _ _
                (SFadd_nonneg _ _ (SFmul_self u Hu) (SFmul_self v Hv))
                (SFmul_self w Hw)) as H.
  simpl. split; [|intros _; exact H].
  apply nonneg_not_nan. exact H.
Qed.

End FloatAlgebra.

(** ** Arithmetic of Vectors *)

Lemma np_add_comm (a b : ndarray) : np.add a b = np.add b a.
Proof.
  unfold np.add.
  rewrite (float_add_comm (a0 a)), (float_add_comm (a1 a)),
    (float_add_comm (a2 a)).
  reflexivity.
Qed.

Lemma np_dot_comm (a b : ndarray) : np.dot a b = np.dot b a.
Proof.
  unfold np.dot.
  rewrite (float_mul_comm (a0 a)), (float_mul_comm (a1 a)),
    (float_mul_comm (a2 a)).
  reflexivity.
Qed.

Lemma np_subtract_diag (a : ndarray) :
  is_finite (a0 a) && is_finite (a1 a) && is_finite (a2 a) = true ->
  np.subtract a a = np.zeros.
Proof.
  intros H. apply andb_prop in H as [H H2]. apply andb_prop in H as [H0 H1].
  unfold np.subtract.
  rewrite (float_sub_diag _ H0), (float_sub_diag _ H1), (float_sub_diag _ H2).
  reflexivity.
Qed.

(** X6: addition and the inner product of two Vectors commute exactly,
    rounding included: [v + w] is [w + v] and [v * w] is [w * v]. *)
Theorem add_and_dot_commute (v w : Vector) :
  Vector.__add__ v (VVec w) = Vector.__add__ w (VVec v)
  /\ Vector.__mul__ v (VVec w) = Vector.__mul__ w (VVec v).
Proof.
  unfold Vector.__add__, Vector.__mul__.
  rewrite (np_add_comm (_data v)), (np_dot_comm (_data v)).
  split; reflexivity.
Qed.

(** X7: the angle is symmetric in its two vectors: [v.angle(w)] and
    [w.angle(v)] are the same float, whatever arccos computes. *)
Theorem angle_symmetric (arccos : float -> float) (v w : Vector) :
  Vector.angle arccos v (VVec w) = Vector.angle arccos w (VVec v).
Proof.
  unfold Vector.angle, Vector.costheta.
  rewrite (np_dot_comm (_data v)).
  rewrite (float_mul_comm (Vector.length v)).
  reflexivity.
Qed.

(** X8: negating twice gives the components back exactly; the result is a
    position vector. *)
Theorem neg_neg (v : Vector) :
  (n ← Vector.__neg__ v; Vector.__neg__ n) = Ok (mkVector (_data v) 1).
Proof.
  destruct v as [[x y z] flag]. vm_compute.
  rewrite !float_opp_involutive. reflexivity.
Qed.

(** X9: subtracting a Vector is adding its negation, exactly. *)
Theorem sub_is_add_neg (v w : Vector) :
  Vector.__sub__ v (VVec w)
  = (n ← Vector.__neg__ w; Vector.__add__ v (VVec n)).
Proof.
  destruct v as [[x y z] fv], w as [[x' y' z'] fw]. vm_compute.
  rewrite !float_sub_add_opp. reflexivity.
Qed.

(** X10: for an operand that is neither a Vector nor a number, [__mul__]
    returns None without any error, whereas [__rmul__], [__truediv__] and
    [__imul__] raise Vector.Error, the last leaving the receiver as it was. *)
Theorem mul_of_other_is_silent (v : Vector) (other : value) :
  Vector.isVector other = false -> utils.isNumType other = false ->
  Vector.__mul__ v other = Ok VNone
  /\ Vector.__rmul__ v other
     = Raise (VectorError "__rmul__ : Could not multiply by non-number")
  /\ Vector.__truediv__ v other
     = Raise (VectorError "__rdiv__ : Could not divide by non-number")
  /\ Vector.__imul__ v other
     = Vector.mkInplace v
         (Raise (VectorError "__imul__ : Could not multiply by non-number")).
Proof.
  destruct other; simpl; intros Hv Hn; try discriminate; repeat split.
Qed.

Lemma mul_of_other_is_silent_witness :
  Vector.__mul__ (mkVector (mkArray 1 2 3) 1) (triple 1 0 0) = Ok VNone
  /\ Vector.__rmul__ (mkVector (mkArray 1 2 3) 1) (triple 1 0 0)
     = Raise (VectorError "__rmul__ : Could not multiply by non-number")
  /\ Vector.__truediv__ (mkVector (mkArray 1 2 3) 1) (triple 1 0 0)
     = Raise (VectorError "__rdiv__ : Could not divide by non-number")
  /\ Vector.__imul__ (mkVector (mkArray 1 2 3) 1) (triple 1 0 0)
     = Vector.mkInplace (mkVector (mkArray 1 2 3) 1)
         (Raise (VectorError "__imul__ : Could not multiply by non-number")).
Proof.
  apply (mul_of_other_is_silent (mkVector (mkArray 1 2 3) 1) (triple 1 0 0));
    reflexivity.
Defined.

(** X11: the named methods do not check their operand: with anything but a
    Vector, [cross], [dist2], [dist] and [angle] raise AttributeError, not
    Vector.Error. *)
Theorem methods_need_a_vector
    (arccos : float -> float) (v : Vector) (other : value) :
  Vector.isVector other = false ->
  Vector.cross v other = Raise (AttributeError "_data")
  /\ Vector.dist2 v other = Raise (AttributeError "length2")
  /\ Vector.dist v other = Raise (AttributeError "length2")
  /\ Vector.angle arccos v other = Raise (AttributeError "length").
Proof.
  destruct other; simpl; intros Hv; try discriminate; repeat split.
Qed.

Lemma methods_need_a_vector_witness :
  Vector.cross (mkVector (mkArray 1 2 3) 1) (triple 1 0 0)
  = Raise (AttributeError "_data")
  /\ Vector.dist2 (mkVector (mkArray 1 2 3) 1) (triple 1 0 0)
     = Raise (AttributeError "length2")
  /\ Vector.dist (mkVector (mkArray 1 2 3) 1) (triple 1 0 0)
     = Raise (AttributeError "length2")
  /\ Vector.angle (fun c => c) (mkVector (mkArray 1 2 3) 1) (triple 1 0 0)
     = Raise (AttributeError "length").
Proof.
  apply (methods_need_a_vector (fun c => c) (mkVector (mkArray 1 2 3) 1)
           (triple 1 0 0)).
  reflexivity.
Defined.

(** X12: for a vector whose components are finite, [v - v] is exactly the
    zero vector and its distance to itself is exactly 0. *)
Theorem self_distance_zero (v : Vector) :
  finite_vector v = true ->
  Vector.__sub__ v (VVec v) = Ok (VVec (mkVector np.zeros 1))
  /\ Vector.dist2 v (VVec v) = Ok 0
  /\ Vector.dist v (VVec v) = Ok 0.
Proof.
  intros H. unfold Vector.dist, Vector.dist2, Vector.__sub__.
  rewrite (np_subtract_diag (_data v) H). repeat split.
Qed.

Lemma self_distance_zero_witness :
  Vector.__sub__ (mkVector (mkArray 1 (-2) 0.1) 0)
    (VVec (mkVector (mkArray 1 (-2) 0.1) 0))
  = Ok (VVec (mkVector np.zeros 1))
  /\ Vector.dist2 (mkVector (mkArray 1 (-2) 0.1) 0)
       (VVec (mkVector (mkArray 1 (-2) 0.1) 0)) = Ok 0
  /\ Vector.dist (mkVector (mkArray 1 (-2) 0.1) 0)
       (VVec (mkVector (mkArray 1 (-2) 0.1) 0)) = Ok 0.
Proof.
  apply (self_distance_zero (mkVector (mkArray 1 (-2) 0.1) 0)). reflexivity.
Defined.

(** X13: the cross product of a vector with itself is exactly the zero
    vector, provided the pairwise products of its components do not
    overflow. *)
Theorem cross_self_zero (v : Vector) :
  is_finite (a1 (_data v) * a2 (_data v)) = true ->
  is_finite (a2 (_data v) * a0 (_data v)) = true ->
  is_finite (a0 (_data v) * a1 (_data v)) = true ->
  Vector.cross v (VVec v) = Ok (mkVector np.zeros 1).
Proof.
  intros H12 H20 H01. unfold Vector.cross. simpl. rewrite of_array_ok.
  unfold np.cross.
  rewrite (float_mul_comm (a2 (_data v)) (a1 (_data v))),
    (float_mul_comm (a0 (_data v)) (a2 (_data v))),
    (float_mul_comm (a1 (_data v)) (a0 (_data v))).
  rewrite (float_sub_diag _ H12), (float_sub_diag _ H20), (float_sub_diag _ H01).
  reflexivity.
Qed.

Lemma cross_self_zero_witness :
  Vector.cross (mkVector (mkArray 1 (-2) 0.1) 1)
    (VVec (mkVector (mkArray 1 (-2) 0.1) 1))
  = Ok (mkVector np.zeros 1).
Proof.
  apply (cross_self_zero (mkVector (mkArray 1 (-2) 0.1) 1)); reflexivity.
Defined.

(** X14: the cross product operator is skew-symmetric: its diagonal is 0,
    each entry is the negation of the mirrored one, and the operator of the
    negated vector is its transpose. *)
Theorem cross_operator_skew (v : Vector) (i j : nat) :
  (i < 3)%nat -> (j < 3)%nat ->
  entry (Vector.cross_operator v) i i = 0
  /\ (i <> j ->
      entry (Vector.cross_operator v) j i
      = - entry (Vector.cross_operator v) i j)
  /\ (n ← Vector.__neg__ v; Ok (Vector.cross_operator n))
     = Ok (transpose (Vector.cross_operator v)).
Proof.
  intros Hi Hj. split; [|split].
  - destruct i as [|[|[|i]]]; try lia; reflexivity.
  - intros Hij.
    destruct i as [|[|[|i]]], j as [|[|[|j]]]; try lia; simpl;
      rewrite ?float_opp_involutive; reflexivity.
  - unfold Vector.__neg__. rewrite of_array_ok. simpl.
    unfold Vector.cross_operator, transpose. simpl.
    rewrite !float_opp_involutive. reflexivity.
Qed.

Lemma cross_operator_skew_witness :
  entry (Vector.cross_operator (mkVector (mkArray 1 2 3) 1)) 0 0 = 0
  /\ (0%nat <> 2%nat ->
      entry (Vector.cross_operator (mkVector (mkArray 1 2 3) 1)) 2 0
      = - entry (Vector.cross_operator (mkVector (mkArray 1 2 3) 1)) 0 2)
  /\ (n ← Vector.__neg__ (mkVector (mkArray 1 2 3) 1);
      Ok (Vector.cross_operator n))
     = Ok (transpose (Vector.cross_operator (mkVector (mkArray 1 2 3) 1))).
Proof.
  apply (cross_operator_skew (mkVector (mkArray 1 2 3) 1) 0 2); lia.
Defined.

(** ** Lengths and distances *)

Lemma length2_spec (v : Vector) :
  Prim2SF (Vector.length2 v)
  = SF64add (SF64add (SF64mul (Prim2SF (a0 (_data v))) (Prim2SF (a0 (_data v))))
                     (SF64mul (Prim2SF (a1 (_data v))) (Prim2SF (a1 (_data v)))))
            (SF64mul (Prim2SF (a2 (_data v))) (Prim2SF (a2 (_data v)))).
Proof.
  unfold Vector.length2, np.dot. rewrite !add_spec, !mul_spec. reflexivity.
Qed.

Lemma length2_class (v : Vector) :
  is_nan (Vector.length2 v) = nan_vector v
  /\ (nan_vector v = false -> SFnonneg (Prim2SF (Vector.length2 v)) = true).
Proof.
  unfold nan_vector. rewrite !is_nan_spec, length2_spec.
  destruct (SFsquares (Prim2SF (a0 (_data v))) (Prim2SF (a1 (_data v)))
              (Prim2SF (a2 (_data v)))) as [Hnan Hpos].
  split; [exact Hnan|].
  intros H. apply Hpos. rewrite Hnan. exact H.
Qed.

Lemma length_class (v : Vector) :
  is_nan (Vector.length v) = nan_vector v
  /\ (nan_vector v = false -> SFnonneg (Prim2SF (Vector.length v)) = true).
Proof.
  destruct (length2_class v) as [Hnan Hpos].
  unfold Vector.length. rewrite is_nan_spec, sqrt_spec.
  destruct (nan_vector v).
  - rewrite is_nan_spec in Hnan.
    destruct (Prim2SF (Vector.length2 v)); try discriminate Hnan.
    split; [reflexivity | discriminate].
  - pose proof (SFsqrt_nonneg _ (Hpos eq_refl)) as H.
    split; [apply nonneg_not_nan, H | intros _; exact H].
Qed.

(** X15: [length2] and [length] are NaN exactly when a component of the
    vector is NaN, and are otherwise never negative (overflow gives
    infinity, not NaN). *)
Theorem length_never_negative (v : Vector) :
  is_nan (Vector.length2 v) = nan_vector v
  /\ is_nan (Vector.length v) = nan_vector v
  /\ (nan_vector v = false ->
      (0 <=? Vector.length2 v) = true /\ (0 <=? Vector.length v) = true).
Proof.
  destruct (length2_class v) as [H2 P2], (length_class v) as [H1 P1].
  split; [exact H2|]. split; [exact H1|].
  intros H. split; apply nonneg_leb; auto.
Qed.

Lemma length_never_negative_witness :
  is_nan (Vector.length2 (mkVector (mkArray 1e200 (-2) 0) 1)) = false
  /\ is_nan (Vector.length (mkVector (mkArray 1e200 (-2) 0) 1)) = false
  /\ (false = false ->
      (0 <=? Vector.length2 (mkVector (mkArray 1e200 (-2) 0) 1)) = true
      /\ (0 <=? Vector.length (mkVector (mkArray 1e200 (-2) 0) 1)) = true).
Proof.
  exact (length_never_negative (mkVector (mkArray 1e200 (-2) 0) 1)).
Defined.

(** X16: the distance and the squared distance between two Vectors are
    returned without error and are NaN or not negative. *)
Theorem dist_never_negative (v w : Vector) :
  exists d2 d : float,
    Vector.dist2 v (VVec w) = Ok d2 /\ Vector.dist v (VVec w) = Ok d
    /\ (is_nan d2 = true \/ (0 <=? d2) = true)
    /\ (is_nan d = true \/ (0 <=? d) = true).
Proof.
  set (u := mkVector (np.subtract (_data v) (_data w)) 1).
  exists (Vector.length2 u), (Vector.length u).
  assert (Hsub : Vector.__sub__ v (VVec w) = Ok (VVec u)).
  { unfold Vector.__sub__. rewrite of_array_ok. reflexivity. }
  assert (H2 : Vector.dist2 v (VVec w) = Ok (Vector.length2 u)).
  { unfold Vector.dist2. rewrite Hsub. reflexivity. }
  split; [exact H2|]. split.
  { unfold Vector.dist. rewrite H2. reflexivity. }
  destruct (length2_class u) as [N2 P2], (length_class u) as [N1 P1].
  destruct (nan_vector u).
  - split; left; assumption.
  - split; right; apply nonneg_leb; auto.
Qed.

(** ** NaN and the zero vector *)

Lemma float_div_nan (x : float) : x / nan = nan.
Proof.
  apply Prim2SF_inj. rewrite div_spec.
  change (Prim2SF nan) with S754_nan.
  destruct (Prim2SF x); reflexivity.
Qed.

(** X17: normalize spreads NaN: if a component of the vector is NaN, all
    three components are NaN afterwards (no error is raised). *)
Theorem normalize_spreads_nan (v : Vector) :
  nan_vector v = true ->
  Vector.normalize v = mkVector nans (_isPosition v)
  /\ Vector.normalized v = Ok (mkVector nans 1).
Proof.
  intros H.
  assert (N : forall flag, Vector.normalize (mkVector (_data v) flag)
                           = mkVector nans flag).
  { intros flag. unfold Vector.normalize.
    assert (L : Vector.length (mkVector (_data v) flag) = nan).
    { apply is_nan_eq.
      destruct (length_class (mkVector (_data v) flag)) as [E _].
      rewrite E. exact H. }
    rewrite L. simpl. unfold np.divide. rewrite !float_div_nan. reflexivity. }
  split.
  - destruct v as [d flag]. apply N.
  - rewrite normalized_total, N. reflexivity.
Qed.

Lemma normalize_spreads_nan_witness :
  Vector.normalize (mkVector (mkArray 3 nan 4) 0) = mkVector nans 0
  /\ Vector.normalized (mkVector (mkArray 3 nan 4) 0) = Ok (mkVector nans 1).
Proof.
  apply (normalize_spreads_nan (mkVector (mkArray 3 nan 4) 0)). reflexivity.
Defined.

(** ** Construction of a Line, continued *)

Lemma mapM_init_flags (es : list value) (vs : list Vector) :
  mapM (fun e => Vector.__init__ [e] ∅) es = Ok vs ->
  Forall (fun v => _isPosition v = 1%Z) vs.
Proof.
  revert vs. induction es as [|e es IH]; intros vs; simpl.
  - intros H. inversion H. constructor.
  - destruct (Vector.__init__ [e] ∅) as [v|err] eqn:Ev; simpl; [|discriminate].
    destruct (mapM (fun e0 => Vector.__init__ [e0] ∅) es) as [vs'|err] eqn:Em;
      simpl; [|discriminate].
    intros H. inversion H. constructor.
    + exact (init_flag _ _ _ Ev).
    + apply IH. reflexivity.
Qed.

Lemma pd_pair_flags (pd : value) (p : Vector) (d : value) :
  Line.pd_pair pd = Ok (p, d) ->
  _isPosition p = 1%Z /\ exists dv, d = VVec dv /\ _isPosition dv = 1%Z.
Proof.
  unfold Line.pd_pair.
  destruct (iterate pd) as [es|err]; simpl; [|discriminate].
  destruct (mapM (fun e => Vector.__init__ [e] ∅) es) as [vs|err] eqn:Em;
    simpl; [|discriminate].
  pose proof (mapM_init_flags es vs Em) as F.
  destruct vs as [|p' [|d' [|x rest]]]; try discriminate.
  intros H. inversion H; subst.
  inversion F as [|? ? Hp F']. inversion F' as [|? ? Hd _]. subst.
  split; [exact Hp|]. exists d'. split; [reflexivity | exact Hd].
Qed.

Lemma init_flags (kwargs : gmap string value) (l : Line) :
  Line.__init__ kwargs = Ok l ->
  _isPosition (_p l) = 1%Z /\ _isPosition (_d l) = 1%Z.
Proof.
  unfold Line.__init__.
  match goal with
  | |- (mbind _ ?blk) = _ -> _ =>
      assert (B : forall p d, blk = Ok (p, d) ->
                _isPosition p = 1%Z
                /\ exists dv, d = VVec dv /\ _isPosition dv = 1%Z);
      [| destruct blk as [[p d]|err]; simpl; [|discriminate] ]
  end.
  - intros p d.
    destruct (kwargs !! "point_direction") as [pd|]; [apply pd_pair_flags|].
    destruct (kwargs !! "pd_pair") as [pd|]; [apply pd_pair_flags|].
    destruct (kwargs !! "point") as [a|], (kwargs !! "direction") as [b|];
      try (destruct (kwargs !! "point0") as [a0|], (kwargs !! "point1") as [b0|]);
      try discriminate.
    all: try (destruct (Vector.__init__ [a] ∅) as [pa|] eqn:Ea; simpl;
              [|discriminate];
              destruct (Vector.__init__ [b] ∅) as [pb|] eqn:Eb; simpl;
              [|discriminate];
              intros H; inversion H; subst;
              split; [exact (init_flag _ _ _ Ea)|];
              exists pb; split; [reflexivity | exact (init_flag _ _ _ Eb)]).
    all: destruct (Vector.__init__ [a0] ∅) as [pa|] eqn:Ea; simpl;
         [|discriminate];
         destruct (Vector.__init__ [b0] ∅) as [pb|] eqn:Eb; simpl;
         [|discriminate];
         intros H; inversion H; subst;
         (split; [exact (init_flag _ _ _ Ea)|]);
         eexists; split; reflexivity.
  - destruct (B p d eq_refl) as [Hp [dv [-> Hd]]]. simpl.
    intros H. inversion H; subst. simpl. split; assumption.
Qed.

(** X18: in every constructed Line the stored point and the stored direction
    are both tagged as position vectors, and the accessors [point] and
    [direction] succeed and return Vectors equal to the stored ones. *)
Theorem line_accessors (kwargs : gmap string value) (l : Line) :
  Line.__init__ kwargs = Ok l ->
  Line.point l = Ok (_p l) /\ Line.direction l = Ok (_d l)
  /\ Vector.isPos (_p l) = 1%Z /\ Vector.isPos (_d l) = 1%Z.
Proof.
  intros H. destruct (init_flags kwargs l H) as [Hp Hd].
  unfold Line.point, Line.direction. rewrite !init_copies_vector.
  change (Vector.position_flag ∅) with 1%Z.
  destruct l as [[dp fp] [dd fd] ud]. simpl in *. subst.
  repeat split.
Qed.

Lemma line_accessors_witness :
  Line.point (line_of (mkArray 0 1 1) (mkArray 0 0.1 1))
  = Ok (mkVector (mkArray 0 1 1) 1)
  /\ Line.direction (line_of (mkArray 0 1 1) (mkArray 0 0.1 1))
     = Ok (mkVector (mkArray 0 0.1 1) 1)
  /\ Vector.isPos (mkVector (mkArray 0 1 1) 1) = 1%Z
  /\ Vector.isPos (mkVector (mkArray 0 0.1 1) 1) = 1%Z.
Proof.
  apply (line_accessors test_l1 (line_of (mkArray 0 1 1) (mkArray 0 0.1 1))).
  reflexivity.
Defined.

(** X19: [projected_point] never returns on a constructed Line: with a
    Vector it raises Vector.Error, from the product of the bound method held
    in [_ud] with a Vector, and with anything else TypeError, from adding
    None to the argument. *)
Theorem projected_point_raises
    (kwargs : gmap string value) (l : Line) (p : value) :
  Line.__init__ kwargs = Ok l ->
  Line.projected_point l p
  = if Vector.isVector p
    then Raise (VectorError "__rmul__ : Could not multiply by non-number")
    else Raise (TypeError "unsupported operand type(s) for +").
Proof.
  intros H. unfold Line.projected_point. rewrite (init_ud kwargs l H).
  destruct p as [| x | items | pv | self name]; reflexivity.
Qed.

Lemma projected_point_raises_witness :
  Line.projected_point (line_of (mkArray 0 1 1) (mkArray 0 0.1 1))
    (VVec (mkVector (mkArray 1 1 1) 1))
  = Raise (VectorError "__rmul__ : Could not multiply by non-number").
Proof.
  apply (projected_point_raises test_l1
           (line_of (mkArray 0 1 1) (mkArray 0 0.1 1))
           (VVec (mkVector (mkArray 1 1 1) 1))).
  reflexivity.
Defined.

(** ** The keywords of a Line *)

Lemma init_of_pair (kwargs : gmap string value) (pd : value) :
  kwargs !! "point_direction" = Some pd
  \/ (kwargs !! "point_direction" = None /\ kwargs !! "pd_pair" = Some pd) ->
  Line.__init__ kwargs
  = ('(p, d) ← Line.pd_pair pd;
     '(d, ud) ← Line.get_normalized d;
     Ok (mkLine p d ud)).
Proof.
  unfold Line.__init__. intros [H | [H1 H2]].
  - rewrite H. reflexivity.
  - rewrite H1, H2. reflexivity.
Qed.

(** X20: 'point_direction' takes precedence over every other keyword, and
    'pd_pair' is the same form under another name, used when
    'point_direction' is absent. *)
Theorem point_direction_takes_precedence
    (kwargs : gmap string value) (pd : value) :
  Line.__init__ (<["point_direction" := pd]> kwargs)
  = Line.__init__ {[ "point_direction" := pd ]}
  /\ (kwargs !! "point_direction" = None ->
      Line.__init__ (<["pd_pair" := pd]> kwargs)
      = Line.__init__ {[ "point_direction" := pd ]}).
Proof.
  assert (S : Line.__init__ {[ "point_direction" := pd ]}
              = ('(p, d) ← Line.pd_pair pd;
                 '(d, ud) ← Line.get_normalized d;
                 Ok (mkLine p d ud))).
  { apply init_of_pair. left. apply lookup_singleton_eq. }
  rewrite S. split.
  - apply init_of_pair. left. apply lookup_insert_eq.
  - intros H. apply init_of_pair. right. split.
    + rewrite lookup_insert_ne by discriminate. exact H.
    + apply lookup_insert_eq.
Qed.

Lemma point_direction_takes_precedence_witness :
  Line.__init__ (<["point_direction" := VSeq [triple 0 0 0; triple 1 0 0]]>
                   {[ "point" := VNone; "point0" := VNone ]})
  = Line.__init__ {[ "point_direction" := VSeq [triple 0 0 0; triple 1 0 0] ]}
  /\ (({[ "point" := VNone ]} : gmap string value) !! "point_direction" = None ->
      Line.__init__ (<["pd_pair" := VSeq [triple 0 0 0; triple 1 0 0]]>
                       {[ "point" := VNone ]})
      = Line.__init__ {[ "point_direction" := VSeq [triple 0 0 0; triple 1 0 0] ]}).
Proof.
  split.
  - apply (point_direction_takes_precedence
             {[ "point" := VNone; "point0" := VNone ]}).
  - apply (point_direction_takes_precedence {[ "point" := VNone ]}).
Defined.

(** X21: a keyword that is none of the six the constructor looks up is
    ignored, whatever its value. *)
Theorem line_ignores_other_keywords
    (kwargs : gmap string value) (k : string) (v : value) :
  k ∉ line_keywords ->
  Line.__init__ (<[k := v]> kwargs) = Line.__init__ kwargs.
Proof.
  unfold line_keywords. rewrite !not_elem_of_cons.
  intros (H1 & H2 & H3 & H4 & H5 & H6 & _).
  unfold Line.__init__.
  rewrite !lookup_insert_ne by assumption. reflexivity.
Qed.

Lemma line_ignores_other_keywords_witness :
  Line.__init__ (<["colour" := VNum 3]> test_l1) = Line.__init__ test_l1.
Proof.
  apply (line_ignores_other_keywords test_l1 "colour" (VNum 3)).
  unfold line_keywords. rewrite !not_elem_of_cons.
  repeat split; try discriminate. apply not_elem_of_nil.
Defined.

(** X22: without 'point_direction' and 'pd_pair', and with 'point' or
    'direction' missing and 'point0' or 'point1' missing, construction raises
    the plain Exception of line 52: half a form is no form. *)
Theorem line_needs_a_complete_form (kwargs : gmap string value) :
  kwargs !! "point_direction" = None -> kwargs !! "pd_pair" = None ->
  kwargs !! "point" = None \/ kwargs !! "direction" = None ->
  kwargs !! "point0" = None \/ kwargs !! "point1" = None ->
  Line.__init__ kwargs
  = Raise (PlainException "Can not create Line object on given arguments").
Proof.
  intros H1 H2 H3 H4. unfold Line.__init__. rewrite H1, H2.
  destruct H3 as [H3|H3], H4 as [H4|H4]; rewrite H3, H4;
    repeat match goal with
           | |- context [match ?m !! ?k with _ => _ end] =>
               destruct (m !! k)
           end; reflexivity.
Qed.

Lemma line_needs_a_complete_form_witness :
  Line.__init__ {[ "point" := triple 0 0 0; "point1" := triple 1 0 0 ]}
  = Raise (PlainException "Can not create Line object on given arguments").
Proof.
  apply (line_needs_a_complete_form
           {[ "point" := triple 0 0 0; "point1" := triple 1 0 0 ]});
    try reflexivity; [right | left]; reflexivity.
Defined.

Lemma init_named_as_pair (a b : value) :
  Line.__init__ {[ "point" := a; "direction" := b ]}
  = ('(p, d) ← Line.pd_pair (VSeq [a; b]);
     '(d, ud) ← Line.get_normalized d;
     Ok (mkLine p d ud)).
Proof.
  unfold Line.__init__.
  change (({[ "point" := a; "direction" := b ]}
             : gmap string value) !! "point_direction") with (@None value).
  change (({[ "point" := a; "direction" := b ]}
             : gmap string value) !! "pd_pair") with (@None value).
  change (({[ "point" := a; "direction" := b ]}
             : gmap string value) !! "point") with (Some a).
  change (({[ "point" := a; "direction" := b ]}
             : gmap string value) !! "direction") with (Some b).
  cbv beta iota. unfold Line.pd_pair, iterate.
  cbn [mbind result_bind mapM mret result_ret].
  destruct (Vector.__init__ [a] ∅) as [p|e]; [|reflexivity].
  destruct (Vector.__init__ [b] ∅) as [d|e]; reflexivity.
Qed.

Lemma pd_pair_fails (a b : value) :
  raises (Vector_of a) || raises (Vector_of b) = true ->
  raises ('(p, d) ← Line.pd_pair (VSeq [a; b]);
          '(d, ud) ← Line.get_normalized d;
          Ok (mkLine p d ud)) = true.
Proof.
  unfold Line.pd_pair, iterate.
  cbn [mbind result_bind mapM mret result_ret].
  destruct (Vector.__init__ [a] ∅) as [p|e]; [|reflexivity].
  destruct (Vector.__init__ [b] ∅) as [d|e]; [discriminate | reflexivity].
Qed.

(** X23: the pair form and the named form are one constructor: for any two
    arguments, [Line(point_direction=(a, b))], [Line(pd_pair=(a, b))] and
    [Line(point=a, direction=b)] give the same Line or raise the same
    error. *)
Theorem pair_form_is_named_form (a b : value) :
  Line.__init__ {[ "point_direction" := VSeq [a; b] ]}
  = Line.__init__ {[ "point" := a; "direction" := b ]}
  /\ Line.__init__ {[ "pd_pair" := VSeq [a; b] ]}
     = Line.__init__ {[ "point" := a; "direction" := b ]}.
Proof.
  rewrite init_named_as_pair. split; apply init_of_pair.
  - left. apply lookup_singleton_eq.
  - right. split; [reflexivity | apply lookup_singleton_eq].
Qed.

(** X24: a Line of given point and direction, or of two given points, fails
    exactly when one of the two arguments makes no Vector. *)
Theorem line_fails_only_with_its_vectors (a b : value) :
  raises (Line.__init__ {[ "point" := a; "direction" := b ]})
  = raises (Vector_of a) || raises (Vector_of b)
  /\ raises (Line.__init__ {[ "point0" := a; "point1" := b ]})
     = raises (Vector_of a) || raises (Vector_of b).
Proof.
  destruct (Vector_of a) as [p|ea] eqn:Ea; [destruct (Vector_of b) as [q|eb] eqn:Eb|].
  - rewrite (init_point_direction a b p q Ea Eb).
    rewrite (init_two_points a b p q Ea Eb). split; reflexivity.
  - split.
    + rewrite init_named_as_pair. apply pd_pair_fails. rewrite Ea, Eb. reflexivity.
    + unfold Line.__init__.
      change (({[ "point0" := a; "point1" := b ]}
                 : gmap string value) !! "point_direction") with (@None value).
      change (({[ "point0" := a; "point1" := b ]}
                 : gmap string value) !! "pd_pair") with (@None value).
      change (({[ "point0" := a; "point1" := b ]}
                 : gmap string value) !! "point") with (@None value).
      change (({[ "point0" := a; "point1" := b ]}
                 : gmap string value) !! "direction") with (@None value).
      change (({[ "point0" := a; "point1" := b ]}
                 : gmap string value) !! "point0") with (Some a).
      change (({[ "point0" := a; "point1" := b ]}
                 : gmap string value) !! "point1") with (Some b).
      cbv beta iota. rewrite Ea. simpl. rewrite Eb. reflexivity.
  - split.
    + rewrite init_named_as_pair. apply pd_pair_fails. rewrite Ea. reflexivity.
    + unfold Line.__init__.
      change (({[ "point0" := a; "point1" := b ]}
                 : gmap string value) !! "point_direction") with (@None value).
      change (({[ "point0" := a; "point1" := b ]}
                 : gmap string value) !! "pd_pair") with (@None value).
      change (({[ "point0" := a; "point1" := b ]}
                 : gmap string value) !! "point") with (@None value).
      change (({[ "point0" := a; "point1" := b ]}
                 : gmap string value) !! "direction") with (@None value).
      change (({[ "point0" := a; "point1" := b ]}
                 : gmap string value) !! "point0") with (Some a).
      cbv beta iota. rewrite Ea. reflexivity.
Qed.

(** ** The pair handed to 'point_direction' *)

Lemma mapM_init_ok (es : list value) :
  Forall (fun e => raises (Vector_of e) = false) es ->
  exists vs : list Vector,
    mapM (fun e => Vector.__init__ [e] ∅) es = Ok vs
    /\ length vs = length es.
Proof.
  induction 1 as [|e es He _ [vs [Hvs Hlen]]]; simpl.
  - exists []. split; reflexivity.
  - destruct (Vector.__init__ [e] ∅) as [v|err]; [|discriminate He].
    exists (v :: vs). rewrite Hvs. simpl. rewrite Hlen. split; reflexivity.
Qed.

(** X25: what 'point_direction' receives must unpack into exactly two
    items: a sequence of another number of items that all make Vectors raises
    ValueError at the unpacking, a Vector (which iterates over its three
    numbers) raises Vector.Error, and a number or None raises TypeError. *)
Theorem point_direction_must_be_a_pair
    (es : list value) (v : Vector) (x : float) :
  Forall (fun e => raises (Vector_of e) = false) es ->
  length es <> 2%nat ->
  Line.__init__ {[ "point_direction" := VSeq es ]}
  = Raise (ValueError "wrong number of values to unpack")
  /\ Line.__init__ {[ "point_direction" := VVec v ]}
     = Raise (VectorError "__init__ : could not create vector on argument")
  /\ Line.__init__ {[ "point_direction" := VNum x ]}
     = Raise (TypeError "object is not iterable")
  /\ Line.__init__ {[ "point_direction" := VNone ]}
     = Raise (TypeError "object is not iterable").
Proof.
  intros Hes Hlen. split; [|repeat split].
  rewrite (init_of_pair _ (VSeq es)) by (left; apply lookup_singleton_eq).
  destruct (mapM_init_ok es Hes) as [vs [Hvs Hl]].
  unfold Line.pd_pair, iterate. cbn [mbind result_bind]. rewrite Hvs.
  destruct vs as [|p [|d [|y rest]]]; try reflexivity.
  simpl in Hl. congruence.
Qed.

Lemma point_direction_must_be_a_pair_witness :
  Line.__init__
    {[ "point_direction" := VSeq [triple 0 0 0; triple 1 0 0; triple 0 1 0] ]}
  = Raise (ValueError "wrong number of values to unpack")
  /\ Line.__init__ {[ "point_direction" := VVec (mkVector (mkArray 1 0 0) 1) ]}
     = Raise (VectorError "__init__ : could not create vector on argument")
  /\ Line.__init__ {[ "point_direction" := VNum 1 ]}
     = Raise (TypeError "object is not iterable")
  /\ Line.__init__ {[ "point_direction" := VNone ]}
     = Raise (TypeError "object is not iterable").
Proof.
  apply (point_direction_must_be_a_pair
           [triple 0 0 0; triple 1 0 0; triple 0 1 0]
           (mkVector (mkArray 1 0 0) 1) 1).
  - repeat constructor.
  - discriminate.
Defined.

(** ** The angle with a zero vector *)

Lemma SFmul_zero_or_nan (u w : spec_float) :
  SFzero_or_nan u = true -> SFzero_or_nan (SF64mul u w) = true.
Proof.
  unfold SF64mul. destruct u, w; simpl; try discriminate; reflexivity.
Qed.

Lemma SFadd_zero_or_nan (u w : spec_float) :
  SFzero_or_nan u = true -> SFzero_or_nan w = true ->
  SFzero_or_nan (SF64add u w) = true.
Proof.
  unfold SF64add. destruct u as [su|su| |su mu eu], w as [sw|sw| |sw mw ew];
    simpl; try discriminate; try reflexivity.
  destruct su, sw; reflexivity.
Qed.

Lemma SFdiv_zero_or_nan (u w : spec_float) :
  SFzero_or_nan u = true -> SFzero_or_nan w = true -> SF64div u w = S754_nan.
Proof.
  unfold SF64div. destruct u, w; simpl; try discriminate; reflexivity.
Qed.

Lemma zero_spec (x : float) : (x =? 0) = true -> SFzero_or_nan (Prim2SF x) = true.
Proof.
  intros H. destruct (eqb_zero x H) as [-> | ->]; reflexivity.
Qed.

Lemma costheta_zero (v w : Vector) :
  is_zero v = true -> Vector.costheta v w = nan.
Proof.
  intros Hz. destruct (zero_vector_length v Hz) as [Hlen _].
  unfold is_zero in Hz.
  apply andb_prop in Hz as [Hz H2]. apply andb_prop in Hz as [H0 H1].
  apply Prim2SF_inj. unfold Vector.costheta. rewrite Hlen.
  unfold np.dot. rewrite div_spec, !add_spec, !mul_spec.
  apply SFdiv_zero_or_nan.
  - repeat apply SFadd_zero_or_nan; apply SFmul_zero_or_nan, zero_spec;
      assumption.
  - apply SFmul_zero_or_nan. reflexivity.
Qed.

(** X26: the angle between a zero vector and any vector, in either order,
    is arccos of NaN: the cosine is 0/0, which the clamping lets through, and
    no error is raised. *)
Theorem angle_with_zero_vector
    (arccos : float -> float) (v w : Vector) :
  is_zero v = true ->
  Vector.angle arccos v (VVec w) = Ok (arccos nan)
  /\ Vector.angle arccos w (VVec v) = Ok (arccos nan).
Proof.
  intros Hz. pose proof (costheta_zero v w Hz) as E.
  assert (E' : Vector.costheta w v = nan).
  { unfold Vector.costheta in *.
    rewrite (np_dot_comm (_data w)), (float_mul_comm (Vector.length w)).
    exact E. }
  unfold Vector.angle. rewrite E, E'. split; reflexivity.
Qed.

Lemma angle_with_zero_vector_witness :
  Vector.angle (fun c => c) (mkVector (mkArray 0 (-0) 0) 1)
    (VVec (mkVector (mkArray 1 2 3) 1)) = Ok nan
  /\ Vector.angle (fun c => c) (mkVector (mkArray 1 2 3) 1)
       (VVec (mkVector (mkArray 0 (-0) 0) 1)) = Ok nan.
Proof.
  apply (angle_with_zero_vector (fun c => c) (mkVector (mkArray 0 (-0) 0) 1)
           (mkVector (mkArray 1 2 3) 1)).
  reflexivity.
Defined.

(** ** Swapping the operands of a difference *)

Section FloatSwap.

Lemma binary_round_aux_opp (s : bool) (m e : Z) (l : location) :
  binary_round_aux prec emax (negb s) m e l
  = SFopp (binary_round_aux prec emax s m e l).
Proof.
  unfold binary_round_aux.
  destruct (shr_fexp prec emax m e l) as [mrs' e'].
  destruct (shr_fexp prec emax _ e' loc_Exact) as [mrs'' e''].
  destruct (shr_m mrs''); try reflexivity.
  destruct (e'' <=? emax - prec)%Z; reflexivity.
Qed.

Lemma binary_round_opp (s : bool) (m : positive) (e : Z) :
  binary_round prec emax (negb s) m e = SFopp (binary_round prec emax s m e).
Proof.
  unfold binary_round.
  destruct (shl_align m e _) as [mz ez]. apply binary_round_aux_opp.
Qed.

Lemma binary_normalize_opp (n e : Z) :
  n <> 0%Z ->
  binary_normalize prec emax (- n) e false
  = SFopp (binary_normalize prec emax n e false).
Proof.
  destruct n as [|p|p]; intros H; [congruence| |]; simpl.
  - apply (binary_round_opp false).
  - apply (binary_round_opp true).
Qed.

Lemma SFsub_swap (u v : spec_float) :
  SF64sub u v = SFopp (SF64sub v u)
  \/ (SF64sub u v = S754_zero false /\ SF64sub v u = S754_zero false).
Proof.
  unfold SF64sub.
  destruct u as [su|su| |su mu eu], v as [sv|sv| |sv mv ev]; simpl;
    try (left; reflexivity);
    try (destruct su, sv; simpl;
         ((left; reflexivity) || (right; split; reflexivity))).
  rewrite (Z.min_comm ev eu).
  set (A := cond_Zopp su (Z.pos (fst (shl_align mu eu (Z.min eu ev))))).
  set (B := cond_Zopp sv (Z.pos (fst (shl_align mv ev (Z.min eu ev))))).
  destruct (Z.eq_dec (B - A)%Z 0%Z) as [E|E].
  - right. replace (A - B)%Z with 0%Z by lia. rewrite E. split; reflexivity.
  - left. replace (A - B)%Z with (- (B - A))%Z by lia.
    apply binary_normalize_opp. exact E.
Qed.

(** [x - y] is the negation of [y - x], unless both are +0. *)
Lemma float_sub_swap (x y : float) :
  x - y = - (y - x) \/ (x - y = 0 /\ y - x = 0).
Proof.
  destruct (SFsub_swap (Prim2SF x) (Prim2SF y)) as [H | [H1 H2]].
  - left. apply Prim2SF_inj. rewrite opp_spec, !sub_spec. exact H.
  - right. split; apply Prim2SF_inj; rewrite sub_spec; assumption.
Qed.

Lemma SFmul_opp_opp (u v : spec_float) :
  SF64mul (SFopp u) (SFopp v) = SF64mul u v.
Proof.
  unfold SF64mul. destruct u as [su|su| |su mu eu], v as [sv|sv| |sv mv ev];
    simpl; try reflexivity; destruct su, sv; reflexivity.
Qed.

Lemma float_square_swap (x y : float) : (x - y) * (x - y) = (y - x) * (y - x).
Proof.
  destruct (float_sub_swap x y) as [H | [H1 H2]].
  - rewrite H. apply Prim2SF_inj. rewrite !mul_spec, opp_spec.
    apply SFmul_opp_opp.
  - rewrite H1, H2. reflexivity.
Qed.

Lemma SFltb_opp (u : spec_float) :
  SFltb (SFopp u) (S754_zero false) = SFltb (S754_zero false) u.
Proof.
  unfold SFltb. destruct u as [s|s| |s m e]; simpl; try reflexivity;
    destruct s; reflexivity.
Qed.

Lemma float_ltb_opp (x : float) : (- x <? 0) = (0 <? x).
Proof. rewrite !FloatAxioms.ltb_spec, opp_spec. apply SFltb_opp. Qed.

End FloatSwap.

Lemma cross_swap (a b : ndarray) (j : nat) :
  component (np.cross a b) j = - component (np.cross b a) j
  \/ (component (np.cross a b) j = 0 /\ component (np.cross b a) j = 0).
Proof.
  unfold np.cross.
  destruct j as [|[|j]]; simpl.
  - rewrite (float_mul_comm (a1 b)), (float_mul_comm (a2 b)).
    apply float_sub_swap.
  - rewrite (float_mul_comm (a2 b)), (float_mul_comm (a0 b)).
    apply float_sub_swap.
  - rewrite (float_mul_comm (a0 b)), (float_mul_comm (a1 b)).
    apply float_sub_swap.
Qed.

Lemma costheta_comm (v w : Vector) : Vector.costheta v w = Vector.costheta w v.
Proof.
  unfold Vector.costheta.
  rewrite (np_dot_comm (_data v)), (float_mul_comm (Vector.length v)).
  reflexivity.
Qed.

(** X27: the cross product anti-commutes up to the sign of zero: each
    component of [v.cross(w)] is the negation of the same component of
    [w.cross(v)], unless both are +0. *)
Theorem cross_anticommutes (v w : Vector) (j : nat) :
  exists r r' : Vector,
    Vector.cross v (VVec w) = Ok r /\ Vector.cross w (VVec v) = Ok r'
    /\ (component (_data r) j = - component (_data r') j
        \/ (component (_data r) j = 0 /\ component (_data r') j = 0)).
Proof.
  exists (mkVector (np.cross (_data v) (_data w)) 1),
         (mkVector (np.cross (_data w) (_data v)) 1).
  unfold Vector.cross. cbn [Vector.data_of mbind result_bind].
  rewrite !of_array_ok.
  split; [reflexivity|]. split; [reflexivity|]. apply cross_swap.
Qed.

(** X28: the distance and the squared distance between two Vectors are
    symmetric exactly, rounding included. *)
Theorem dist_symmetric (v w : Vector) :
  Vector.dist2 v (VVec w) = Vector.dist2 w (VVec v)
  /\ Vector.dist v (VVec w) = Vector.dist w (VVec v).
Proof.
  assert (E : Vector.dist2 v (VVec w) = Vector.dist2 w (VVec v)).
  { unfold Vector.dist2, Vector.__sub__. rewrite !of_array_ok. simpl.
    unfold Vector.length2, np.dot, np.subtract. simpl.
    rewrite (float_square_swap (a0 (_data v))),
      (float_square_swap (a1 (_data v))), (float_square_swap (a2 (_data v))).
    reflexivity. }
  split; [exact E|]. unfold Vector.dist. rewrite E. reflexivity.
Qed.

(** The signed angle is the angle or its negation, by the sign of the z
    component of the cross product or, with a Vector as reference, of the
    product of the cross product with it; a number as reference raises
    TypeError. *)
Lemma sangle_is_signed_angle
    (arccos : float -> float) (v w r : Vector) (x : float) :
  exists (t : float) (c : Vector),
    Vector.angle arccos v (VVec w) = Ok t /\ Vector.cross v (VVec w) = Ok c
    /\ Vector.sangle arccos v (VVec w) VNone
       = Ok (if a2 (_data c) <? 0 then - t else t)
    /\ Vector.sangle arccos v (VVec w) (VVec r)
       = Ok (if np.dot (_data c) (_data r) <? 0 then - t else t)
    /\ Vector.sangle arccos v (VVec w) (VNum x)
       = Raise (TypeError "'<' not supported").
Proof.
  exists (arccos (Vector.clamp (Vector.costheta v w))),
         (mkVector (np.cross (_data v) (_data w)) 1).
  assert (C : Vector.cross v (VVec w)
              = Ok (mkVector (np.cross (_data v) (_data w)) 1)).
  { unfold Vector.cross. simpl. apply of_array_ok. }
  unfold Vector.sangle. rewrite C.
  cbn [Vector.angle mbind result_bind Vector.__mul__].
  rewrite of_array_ok. repeat split.
Qed.

Lemma float_ltb_asym (x y : float) : (x <? y) = true -> (y <? x) = false.
Proof.
  rewrite !FloatAxioms.ltb_spec. unfold SFltb.
  rewrite (SFcompare_swap (Prim2SF x) (Prim2SF y)).
  destruct (SFcompare (Prim2SF x) (Prim2SF y)) as [[ | | ]|]; simpl;
    congruence.
Qed.

(** X29: swapping the two vectors of a signed angle keeps the angle and
    tests the opposite sign: [v.sangle(w)] negates the angle when the z
    component of [v x w] is below 0, [w.sangle(v)] when it is above 0.  So
    the two results are negations of each other when that component is below
    or above 0, and both are the unnegated angle when it is a zero or NaN. *)
Theorem sangle_swap (arccos : float -> float) (v w : Vector) :
  let z := a2 (np.cross (_data v) (_data w)) in
  exists t : float,
    Vector.angle arccos v (VVec w) = Ok t
    /\ Vector.sangle arccos v (VVec w) VNone = Ok (if z <? 0 then - t else t)
    /\ Vector.sangle arccos w (VVec v) VNone = Ok (if 0 <? z then - t else t)
    /\ if (z <? 0) || (0 <? z)
       then exists s : float,
              Vector.sangle arccos v (VVec w) VNone = Ok s
              /\ Vector.sangle arccos w (VVec v) VNone = Ok (- s)
       else Vector.sangle arccos v (VVec w) VNone = Ok t
            /\ Vector.sangle arccos w (VVec v) VNone = Ok t.
Proof.
  intros z. set (t := arccos (Vector.clamp (Vector.costheta v w))).
  assert (S1 : Vector.sangle arccos v (VVec w) VNone
               = Ok (if z <? 0 then - t else t)).
  { unfold Vector.sangle, Vector.cross.
    cbn [Vector.angle Vector.data_of mbind result_bind].
    rewrite !of_array_ok. reflexivity. }
  assert (S2 : Vector.sangle arccos w (VVec v) VNone
               = Ok (if 0 <? z then - t else t)).
  { unfold Vector.sangle, Vector.cross.
    cbn [Vector.angle Vector.data_of mbind result_bind].
    rewrite !of_array_ok. cbn [mbind result_bind _data].
    rewrite (costheta_comm w v). fold t.
    destruct (cross_swap (_data w) (_data v) 2) as [H | [H1 H2]]; simpl in *.
    - rewrite H, float_ltb_opp. reflexivity.
    - subst z. rewrite H1, H2. reflexivity. }
  exists t. split; [reflexivity|]. split; [exact S1|]. split; [exact S2|].
  rewrite S1, S2.
  destruct (z <? 0) eqn:Hneg.
  - rewrite (float_ltb_asym z 0 Hneg). simpl.
    exists (- t). rewrite float_opp_involutive. split; reflexivity.
  - destruct (0 <? z) eqn:Hpos; simpl.
    + exists t. split; reflexivity.
    + split; reflexivity.
Qed.

(** At z = NaN neither test holds and both calls return the angle itself. *)
Example sangle_swap_at_nan :
  Vector.sangle (fun c => c) (mkVector (mkArray nan 0 0) 1)
    (VVec (mkVector (mkArray 0 1 0) 1)) VNone
  = Vector.sangle (fun c => c) (mkVector (mkArray 0 1 0) 1)
      (VVec (mkVector (mkArray nan 0 0) 1)) VNone.
Proof. reflexivity. Qed.
